(** * minssh: interactive terminal session engine

    A shallow embedding of the parts of [pkg/minssh] that make a remote
    shell behave like a local terminal: the console key translator
    ([ansi_windows.go]), the Windows and POSIX terminal-mode controllers
    (the two build-tagged system files) and the session pumps and runner
    (the file that declares [MinSSH]).

    Conventions.  Fixed-width Go integers are [Z] with the wrap-around
    written where the code converts; byte slices are [list Z]; Go maps are
    [gmap]; a Go [error] is [option] of an error value ([None] is [nil]);
    a [[]byte] that the code tests against [nil] is [option (list Z)].
    Calls that reach the operating system or the SSH library are answered by
    an explicit environment, and what the code does to the outside world is
    recorded as a list of events. *)

From Stdlib Require Import ZArith List String Ascii Bool Lia.
From stdpp Require Import base option list gmap pretty.
Import ListNotations.
Local Open Scope Z_scope.

(** ** Byte strings *)

(** The bytes of an ASCII string literal. *)
Fixpoint bytes (s : string) : list Z :=
  match s with
  | EmptyString => []
  | String c s' => Z.of_nat (nat_of_ascii c) :: bytes s'
  end.

Definition ESC : Z := 0x1b.

(** ** Go standard library: [unicode/utf16] and [unicode/utf8]

    These are not code of the repository; they are transcribed from the Go
    standard library the code calls. *)
Module utf16.

Definition surr1 : Z := 0xd800.
Definition surr2 : Z := 0xdc00.
Definition surr3 : Z := 0xe000.
Definition surrSelf : Z := 0x10000.
Definition replacementChar : Z := 0xFFFD.

(** [func IsSurrogate(r rune) bool] *)
Definition IsSurrogate (r : Z) : bool :=
  (surr1 <=? r) && (r <? surr3).

(** [func DecodeRune(r1, r2 rune) rune] *)
Definition DecodeRune (r1 r2 : Z) : Z :=
  if (surr1 <=? r1) && (r1 <? surr2) && (surr2 <=? r2) && (r2 <? surr3)
  then Z.lor (Z.shiftl (r1 - surr1) 10) (r2 - surr2) + surrSelf
  else replacementChar.

End utf16.

Module utf8.

Definition rune1Max : Z := 0x7F.
Definition rune2Max : Z := 0x7FF.
Definition rune3Max : Z := 0xFFFF.
Definition MaxRune : Z := 0x10FFFF.
Definition RuneError : Z := 0xFFFD.
Definition surrogateMin : Z := 0xD800.
Definition surrogateMax : Z := 0xDFFF.

(** [byte(x)]: truncation to eight bits. *)
Definition byte (x : Z) : Z := x mod 256.

Definition enc3 (r : Z) : list Z :=
  [ Z.lor 0xE0 (byte (Z.shiftr r 12));
    Z.lor 0x80 (Z.land (byte (Z.shiftr r 6)) 0x3F);
    Z.lor 0x80 (Z.land (byte r) 0x3F) ].

(** [func EncodeRune(p []byte, r rune) int], returning the bytes written.
    The switch is on [uint32(r)]. *)
Definition EncodeRune (r : Z) : list Z :=
  let i := r mod 2 ^ 32 in
  if i <=? rune1Max then [ byte r ]
  else if i <=? rune2Max then
    [ Z.lor 0xC0 (byte (Z.shiftr r 6));
      Z.lor 0x80 (Z.land (byte r) 0x3F) ]
  else if (MaxRune <? i) || ((surrogateMin <=? i) && (i <=? surrogateMax))
  then enc3 RuneError
  else if i <=? rune3Max then enc3 r
  else
    [ Z.lor 0xF0 (byte (Z.shiftr r 18));
      Z.lor 0x80 (Z.land (byte (Z.shiftr r 12)) 0x3F);
      Z.lor 0x80 (Z.land (byte (Z.shiftr r 6)) 0x3F);
      Z.lor 0x80 (Z.land (byte r) 0x3F) ].

End utf8.

(** [fmt.Sprintf] with the single verb [%c]: the UTF-8 encoding of the
    rune. *)
Definition fmt_c (r : Z) : list Z := utf8.EncodeRune r.

(** ** Virtual key codes and control key states ([ansi_windows.go]) *)

(** Each constant block is [base + iota]; the second summand is the
    position of the name in its block, blanks included. *)
Module vk.

Definition vk_back : Z := 1 + 7.
Definition vk_pause : Z := 1 + 18.
Definition vk_escape : Z := 1 + 26.
Definition vk_space : Z := 1 + 31.
Definition vk_prior : Z := 1 + 32.
Definition vk_next : Z := 1 + 33.
Definition vk_end : Z := 1 + 34.
Definition vk_home : Z := 1 + 35.
Definition vk_left : Z := 1 + 36.
Definition vk_up : Z := 1 + 37.
Definition vk_right : Z := 1 + 38.
Definition vk_down : Z := 1 + 39.
Definition vk_insert : Z := 1 + 44.
Definition vk_delete : Z := 1 + 45.

Definition vk_f1 : Z := 0x5B + 21.
Definition vk_f2 : Z := 0x5B + 22.
Definition vk_f3 : Z := 0x5B + 23.
Definition vk_f4 : Z := 0x5B + 24.
Definition vk_f5 : Z := 0x5B + 25.
Definition vk_f6 : Z := 0x5B + 26.
Definition vk_f7 : Z := 0x5B + 27.
Definition vk_f8 : Z := 0x5B + 28.
Definition vk_f9 : Z := 0x5B + 29.
Definition vk_f10 : Z := 0x5B + 30.
Definition vk_f11 : Z := 0x5B + 31.
Definition vk_f12 : Z := 0x5B + 32.

End vk.
Import vk.

Definition capslock_on : Z := 0x0080.
Definition enhanced_key : Z := 0x0100.
Definition left_alt_pressed : Z := 0x0002.
Definition left_ctrl_pressed : Z := 0x0008.
Definition numlock_on : Z := 0x0020.
Definition right_alt_pressed : Z := 0x0001.
Definition right_ctrl_pressed : Z := 0x0004.
Definition scrolllock_on : Z := 0x0040.
Definition shift_pressed : Z := 0x0010.

(** [var arrowKeyMap = map[int]byte{...}] *)
Definition arrowKeyMap : gmap Z Z :=
  list_to_map
    [ (vk_up, 65); (vk_down, 66); (vk_right, 67);
      (vk_left, 68); (vk_home, 72); (vk_end, 70) ].

(** [var f1ToF4KeyMap = map[int]byte{...}] *)
Definition f1ToF4KeyMap : gmap Z Z :=
  list_to_map [ (vk_f1, 80); (vk_f2, 81); (vk_f3, 82); (vk_f4, 83) ].

(** [var f5toF12KeyMap = map[int][2]byte{...}] *)
Definition f5toF12KeyMap : gmap Z (Z * Z) :=
  list_to_map
    [ (vk_f5, (49, 53)); (vk_f6, (49, 55)); (vk_f7, (49, 56));
      (vk_f8, (49, 57)); (vk_f9, (50, 48)); (vk_f10, (50, 49));
      (vk_f11, (50, 51)); (vk_f12, (50, 52)) ].

(** Indexing a Go map: the zero value when the key is absent. *)
Definition index {V} (zero : V) (m : gmap Z V) (key : Z) : V :=
  default zero (m !! key).

(** ** Console records (Windows system file) *)

(** [keyEventRecord]; [keyDown] is an [int32], the codes are [uint16] and
    [controlKeyState] is a [uint32]. *)
Record keyEventRecord := {
  keyDown : Z;
  repeatCount : Z;
  virtualKeyCode : Z;
  virtualScanCode : Z;
  unicodeChar : Z;
  controlKeyState : Z
}.

Definition focusEvent : Z := 0x0010.
Definition keyEvent : Z := 0x0001.
Definition menuEvent : Z := 0x0008.
Definition mouseEvent : Z := 0x0002.
Definition windowBufferSizeEvent : Z := 0x0004.

(** [inputRecord]: the event type and the sixteen bytes of the union, kept
    here as the key-event view that [Read] takes of them. *)
Record inputRecord := {
  eventType : Z;
  event : keyEventRecord
}.

(** ** The key translator ([ansi_windows.go]) *)

(** [os.Stdin], [os.Stdout], [os.Stderr]. *)
Inductive stream := Stdin | Stdout | Stderr.

(** [ansiReader]; [fd] is [file.Fd()] and is not kept apart. *)
Record ansiReader := {
  file : stream;
  lastRune : Z
}.

(** [func NewAnsiReader(f *os.File) *ansiReader] *)
Definition NewAnsiReader (f : stream) : ansiReader :=
  {| file := f; lastRune := 0 |}.

(** A [case] clause listing several values. *)
Definition case_of (v : Z) (values : list Z) : bool :=
  existsb (Z.eqb v) values.

Definition ctrl_held (k : keyEventRecord) : bool :=
  negb (Z.land (controlKeyState k)
          (Z.lor left_ctrl_pressed right_ctrl_pressed) =? 0).

Definition alt_held (k : keyEventRecord) : bool :=
  negb (Z.land (controlKeyState k)
          (Z.lor left_alt_pressed right_alt_pressed) =? 0).

(** [func (ar *ansiReader) toAnsiSeq(k *keyEventRecord) []byte] *)
Definition toAnsiSeq (ar : ansiReader) (k : keyEventRecord)
  : option (list Z) :=
  let vk := virtualKeyCode k in
  if case_of vk [vk_up; vk_down; vk_right; vk_left; vk_home; vk_end] then
    if ctrl_held k
    then Some (ESC :: bytes "[1;5" ++ fmt_c (index 0 arrowKeyMap vk))
    else Some (ESC :: bytes "[" ++ fmt_c (index 0 arrowKeyMap vk))
  else if case_of vk [vk_back] then
    if alt_held k && negb (ctrl_held k)
    then Some [0x1b; 8]
    else Some [0x7f]
  else if case_of vk [vk_pause] then Some [0x1a]
  else if case_of vk [vk_escape] then Some [0x1b]
  else if case_of vk [vk_insert] then Some (ESC :: bytes "[2~")
  else if case_of vk [vk_delete] then Some (ESC :: bytes "[3~")
  else if case_of vk [vk_prior] then Some (ESC :: bytes "[5~")
  else if case_of vk [vk_next] then Some (ESC :: bytes "[6~")
  else if case_of vk [vk_f1; vk_f2; vk_f3; vk_f4] then
    Some (ESC :: bytes "O" ++ fmt_c (index 0 f1ToF4KeyMap vk))
  else if case_of vk
            [vk_f5; vk_f6; vk_f7; vk_f8; vk_f9; vk_f10; vk_f11; vk_f12] then
    Some (ESC :: bytes "[" ++
          fmt_c (index (0, 0) f5toF12KeyMap vk).1 ++
          fmt_c (index (0, 0) f5toF12KeyMap vk).2 ++ bytes "~")
  else if (0x20 <=? unicodeChar k) && (unicodeChar k <=? 0x7E)
          && alt_held k && negb (ctrl_held k)
  then Some (ESC :: fmt_c (unicodeChar k))
  else None.

(** ** Errors *)

(** The Go [error] values the session code meets. *)
Inductive error :=
| Errno (code : Z)
| EOF
| ExitMissingError
| ExitError (status : Z)
| OtherError (msg : string)
| Errorf (format : string) (cause : error).

(** What one [readConsoleInput] call obtained: the records the console
    filled in (at most two, the length of the slice [Read] passes), or the
    error number of the system call. *)
Inductive consoleInput :=
| Records (records : list inputRecord)
| ConsoleErr (errno : Z).

Definition set_lastRune (ar : ansiReader) (r : Z) : ansiReader :=
  {| file := file ar; lastRune := r |}.

(** One turn of the [for] loop of [Read]: the reader and the bytes appended
    to [b] so far, before and after [record]. *)
Definition readRecord (st : ansiReader * list Z) (record : inputRecord)
  : ansiReader * list Z :=
  let '(ar, b) := st in
  if eventType record =? keyEvent then
    let ev := event record in
    if negb (keyDown ev =? 1) then (ar, b)
    else
      match toAnsiSeq ar ev with
      | Some seq => (ar, b ++ seq)
      | None =>
          let r := unicodeChar ev in
          if negb (lastRune ar =? 0) then
            let r := utf16.DecodeRune (lastRune ar) r in
            let ar := set_lastRune ar 0 in
            if r =? 0 then (ar, b) else (ar, b ++ utf8.EncodeRune r)
          else if utf16.IsSurrogate r then (set_lastRune ar r, b)
          else if r =? 0 then (ar, b)
          else (ar, b ++ utf8.EncodeRune r)
      end
  else (ar, b).

(** [func (ar *ansiReader) Read(b []byte) (n int, err error)]: the reader
    after the call, the bytes left in [b[:n]] and the error.  The caller's
    buffer has 128 bytes, and two records fill at most twelve. *)
Definition Read (ar : ansiReader) (input : consoleInput)
  : ansiReader * (list Z * option error) :=
  match input with
  | ConsoleErr e => (ar, ([], Some (Errno e)))
  | Records [] => (ar, ([], Some EOF))
  | Records records =>
      let '(ar', b) := fold_left readRecord records (ar, []) in
      (ar', (b, None))
  end.

(** ** The outside world *)

(** An argument of a [Printf]. *)
Inductive arg :=
| AStr (s : string)
| AErr (e : error).

(** The goroutines [RunInteractive] starts. *)
Inductive task :=
| ResizeWatcher
| ResizePump
| StdoutPump
| StderrPump
| StdinPump
| ExitWaiter.

(** What the code does to the operating system, the SSH library and the
    user, in the order it does it. *)
Inductive action :=
| GetConsoleMode (f : stream)
| SetConsoleMode (f : stream) (mode : Z)
| MakeRaw (f : stream)
| Restore (f : stream) (state : Z)
| GetWindowSize
| Getenv (name : string)
| RequestPty (term : string) (h w : Z)
| StdinPipe
| StdoutPipe
| StderrPipe
| Shell
| SignalNotify
| SignalStop
| Go (t : task)
| Cancel
| WgWait
| SessClose
| ConnClose
| RStdinWrite (data : list Z)
| RStdinClose
| SendRequest (name : string) (wantReply : bool) (payload : list Z)
| LogPrintf (format : string) (args : list arg)
| LogPrintln (args : list arg)
| Printf (format : string) (args : list arg)
| Println (args : list arg).

(** [smallRect]; the four fields are [short]. *)
Record smallRect := {
  left : Z;
  top : Z;
  right : Z;
  bottom : Z
}.

(** The Windows console: what [GetConsoleMode] answers for each standard
    handle (a mode word, or an error number), the error number with which
    [SetConsoleMode] refuses a mode, and the window rectangle that
    [GetConsoleScreenBufferInfo] reports for the output handle. *)
Record Console := {
  con_mode : stream -> Z + Z;
  con_refuses : stream -> Z -> option Z;
  con_window : smallRect + Z
}.

(** The POSIX terminal on standard input, as [terminal.MakeRaw],
    [terminal.Restore] and [terminal.GetSize] see it: the current settings,
    the raw settings [MakeRaw] would install, and the failures the calls
    meet. *)
Record Tty := {
  tty_state : Z;
  tty_raw : Z -> Z;
  tty_makeRaw_err : option error;
  tty_restore_err : option error;
  tty_size : Z * Z * option error
}.

(** The remote side, as the SSH library reports it: the failure, if any, of
    each request [prepareRemoteTerminal] makes, and how the session ends. *)
Inductive ending :=
| GotSignal
| SessionWait (err : option error).

Record Remote := {
  rem_RequestPty : option error;
  rem_StdinPipe : option error;
  rem_StdoutPipe : option error;
  rem_StderrPipe : option error;
  rem_Shell : option error;
  rem_ending : ending
}.

Record World := {
  console : Console;
  tty : Tty;
  remote : Remote;
  env_TERM : string;
  trace : list action
}.

(** Code that acts on the world. *)
Definition M (A : Type) : Type := World -> A * World.

Definition ret {A} (a : A) : M A := fun w => (a, w).

Definition bind {A B} (m : M A) (k : A -> M B) : M B :=
  fun w => let '(a, w') := m w in k a w'.

Notation "x <~ m ;; k" := (bind m (fun x => k))
  (at level 20, m at level 99, k at level 200, only parsing).
Notation "' p <~ m ;; k" := (bind m (fun p => k))
  (at level 20, p pattern, m at level 99, k at level 200, only parsing).
Notation "m ;; k" := (bind m (fun _ => k))
  (at level 100, k at level 200, right associativity, only parsing).

Definition ask {A} (f : World -> A) : M A := fun w => (f w, w).

Definition emit (e : action) : M unit :=
  fun w =>
    (tt, {| console := console w; tty := tty w; remote := remote w;
            env_TERM := env_TERM w; trace := trace w ++ [e] |}).

Definition put_console (c : Console) : M unit :=
  fun w =>
    (tt, {| console := c; tty := tty w; remote := remote w;
            env_TERM := env_TERM w; trace := trace w |}).

Definition put_tty (t : Tty) : M unit :=
  fun w =>
    (tt, {| console := console w; tty := t; remote := remote w;
            env_TERM := env_TERM w; trace := trace w |}).

(** An [if] with no [else] and no [return] in its body. *)
Definition when (c : bool) (m : M unit) : M unit :=
  if c then m else ret tt.

(** [int16(x)]: two's-complement wrap-around of a [short]. *)
Definition int16 (x : Z) : Z := (x + 2 ^ 15) mod 2 ^ 16 - 2 ^ 15.

(** [uint32(x)]. *)
Definition uint32 (x : Z) : Z := x mod 2 ^ 32.

(** [err != nil] *)
Definition is_err {E} (e : option E) : bool :=
  match e with Some _ => true | None => false end.

(** What standard input holds at one [readFromStdin] call: the key records
    the console API would return, and what a plain [os.Stdin.Read] would. *)
Record stdinTurn := {
  as_records : consoleInput;
  as_bytes : list Z * option error
}.

(** ** The Windows system file *)
Module windows.

Definition enableEchoInput : Z := 0x0004.
Definition enableLineInput : Z := 0x0002.
Definition enableProcessedInput : Z := 0x0001.
Definition enableVirtualTerminalInput : Z := 0x0200.
Definition enableVirtualTerminalProcessing : Z := 0x0004.
Definition disableNewlineAutoReturn : Z := 0x0008.

Record sysInfo := {
  stdinMode : Z;
  stdoutMode : Z;
  stderrMode : Z;
  emuStdin : bool;
  emuStdout : bool;
  lastRune : Z
}.

(** [&sysInfo{}] *)
Definition new_sysInfo : sysInfo :=
  {| stdinMode := 0; stdoutMode := 0; stderrMode := 0;
     emuStdin := false; emuStdout := false; lastRune := 0 |}.

Definition set_stdinMode (sys : sysInfo) (m : Z) : sysInfo :=
  {| stdinMode := m; stdoutMode := stdoutMode sys;
     stderrMode := stderrMode sys; emuStdin := emuStdin sys;
     emuStdout := emuStdout sys; lastRune := lastRune sys |}.

Definition set_stdoutMode (sys : sysInfo) (m : Z) : sysInfo :=
  {| stdinMode := stdinMode sys; stdoutMode := m;
     stderrMode := stderrMode sys; emuStdin := emuStdin sys;
     emuStdout := emuStdout sys; lastRune := lastRune sys |}.

Definition set_stderrMode (sys : sysInfo) (m : Z) : sysInfo :=
  {| stdinMode := stdinMode sys; stdoutMode := stdoutMode sys;
     stderrMode := m; emuStdin := emuStdin sys;
     emuStdout := emuStdout sys; lastRune := lastRune sys |}.

Definition set_emuStdin (sys : sysInfo) (b : bool) : sysInfo :=
  {| stdinMode := stdinMode sys; stdoutMode := stdoutMode sys;
     stderrMode := stderrMode sys; emuStdin := b;
     emuStdout := emuStdout sys; lastRune := lastRune sys |}.

Definition set_emuStdout (sys : sysInfo) (b : bool) : sysInfo :=
  {| stdinMode := stdinMode sys; stdoutMode := stdoutMode sys;
     stderrMode := stderrMode sys; emuStdin := emuStdin sys;
     emuStdout := b; lastRune := lastRune sys |}.

(** [func getConsoleMode(fd uintptr) (mode dword, err error)] *)
Definition getConsoleMode (f : stream) : M (Z * option Z) :=
  emit (GetConsoleMode f) ;;
  c <~ ask console ;;
  match con_mode c f with
  | inl mode => ret (mode, None)
  | inr e => ret (0, Some e)
  end.

Definition with_mode (c : Console) (f : stream) (mode : Z) : Console :=
  {| con_mode := fun g =>
       match f, g with
       | Stdin, Stdin | Stdout, Stdout | Stderr, Stderr => inl mode
       | _, _ => con_mode c g
       end;
     con_refuses := con_refuses c;
     con_window := con_window c |}.

(** [func setConsoleMode(fd uintptr, mode dword) (err error)] *)
Definition setConsoleMode (f : stream) (mode : Z) : M (option Z) :=
  emit (SetConsoleMode f mode) ;;
  c <~ ask console ;;
  match con_refuses c f mode with
  | Some e => ret (Some e)
  | None => put_console (with_mode c f mode) ;; ret None
  end.

(** [func (ms *MinSSH) changeLocalTerminalMode() error], on [ms.sys]. *)
Definition changeLocalTerminalMode (sys : sysInfo)
  : M (sysInfo * option error) :=
  '(m, err) <~ getConsoleMode Stdin ;;
  let sys := set_stdinMode sys m in
  match err with
  | Some e =>
      ret (sys, Some (Errorf "failed to get local stdin mode: %s" (Errno e)))
  | None =>
  '(m, err) <~ getConsoleMode Stdout ;;
  let sys := set_stdoutMode sys m in
  match err with
  | Some e =>
      ret (sys, Some (Errorf "failed to get local stdout mode: %s" (Errno e)))
  | None =>
  '(m, err) <~ getConsoleMode Stderr ;;
  let sys := set_stderrMode sys m in
  match err with
  | Some e =>
      ret (sys, Some (Errorf "failed to get local stderr mode: %s" (Errno e)))
  | None =>
  let newBaseMode :=
    Z.ldiff (stdinMode sys)
      (Z.lor (Z.lor enableEchoInput enableProcessedInput) enableLineInput) in
  let newMode := Z.lor newBaseMode enableVirtualTerminalInput in
  err <~ setConsoleMode Stdin newMode ;;
  '(sys, failed) <~
    match err with
    | None => ret (sys, None)
    | Some e =>
        emit (LogPrintf
          "failed to set local stdin mode with 'EnableVirtualTerminalInput': %s\n"
          [AErr (Errno e)]) ;;
        err <~ setConsoleMode Stdin newBaseMode ;;
        match err with
        | Some e =>
            ret (sys,
                 Some (Errorf "failed to set local stdin mode: %s" (Errno e)))
        | None =>
            emit (LogPrintln [AStr "stdin fallback to internal input emulator"]) ;;
            ret (set_emuStdin sys true, None)
        end
    end ;;
  match failed with
  | Some e => ret (sys, Some e)
  | None =>
  let newMode :=
    Z.lor (Z.lor (stdoutMode sys) enableVirtualTerminalProcessing)
      disableNewlineAutoReturn in
  err <~ setConsoleMode Stdout newMode ;;
  sys <~
    match err with
    | None => ret sys
    | Some e =>
        emit (LogPrintf
          "failed to set local stdout mode with 'EnableVirtualTerminalProcessing' and 'DisableNewlineAutoReturn': %s\n"
          [AErr (Errno e)]) ;;
        let newMode := Z.lor (stdoutMode sys) enableVirtualTerminalProcessing in
        err <~ setConsoleMode Stdout newMode ;;
        match err with
        | None => ret sys
        | Some e =>
            emit (LogPrintf
              "failed to set local stdout mode with 'EnableVirtualTerminalProcessing': %s\n"
              [AErr (Errno e)]) ;;
            emit (LogPrintln [AStr "stdout fallback to internal output emulator"]) ;;
            ret (set_emuStdout (set_stdoutMode sys 0) true)
        end
    end ;;
  if emuStdout sys then
    emit (LogPrintln [AStr "stderr fallback to internal output emulator"]) ;;
    ret (set_stderrMode sys 0, None)
  else
    let newMode :=
      Z.lor (Z.lor (stdoutMode sys) enableVirtualTerminalProcessing)
        disableNewlineAutoReturn in
    err <~ setConsoleMode Stderr newMode ;;
    match err with
    | None => ret (sys, None)
    | Some e =>
        emit (LogPrintf
          "failed to set local stderr mode with 'EnableVirtualTerminalProcessing' and 'DisableNewlineAutoReturn': %s\n"
          [AErr (Errno e)]) ;;
        let newMode := Z.lor (stdoutMode sys) enableVirtualTerminalProcessing in
        err <~ setConsoleMode Stderr newMode ;;
        match err with
        | None => ret (sys, None)
        | Some e =>
            emit (LogPrintf
              "failed to set local stderr mode with 'EnableVirtualTerminalProcessing': %s\n"
              [AErr (Errno e)]) ;;
            emit (LogPrintln [AStr "stderr fallback to internal output emulator"]) ;;
            ret (sys, None)
        end
    end
  end end end end.

(** [fmt.Sprintf(label + ": %d", e)] for an [Errno]. *)
Definition sprintf_d (label : string) (e : Z) : string :=
  (label ++ ": " ++ pretty e)%string.

(** [func (ms *MinSSH) restoreLocalTerminalMode() error], on [ms.sys]. *)
Definition restoreLocalTerminalMode (sys : sysInfo) : M (option error) :=
  inE <~ (if 0 <? stdinMode sys
          then setConsoleMode Stdin (stdinMode sys) else ret None) ;;
  outE <~ (if 0 <? stdoutMode sys
           then setConsoleMode Stdout (stdoutMode sys) else ret None) ;;
  errE <~ (if 0 <? stderrMode sys
           then setConsoleMode Stderr (stderrMode sys) else ret None) ;;
  if is_err inE || is_err outE || is_err errE then
    let errs := [] in
    let errs :=
      match inE with Some e => errs ++ [sprintf_d "stdin" e] | None => errs end in
    let errs :=
      match outE with Some e => errs ++ [sprintf_d "stdout" e] | None => errs end in
    let errs :=
      match errE with Some e => errs ++ [sprintf_d "stderr" e] | None => errs end in
    let emsg := "failed to restore "%string in
    let emsg := (emsg ++ String.concat ", " errs)%string in
    ret (Some (OtherError emsg))
  else ret None.

(** [func (ms *MinSSH) getWindowSize() (width, height int, err error)]; the
    differences are taken in [short]. *)
Definition getWindowSize : M (Z * Z * option error) :=
  emit GetWindowSize ;;
  c <~ ask console ;;
  match con_window c with
  | inr e => ret (0, 0, Some (Errno e))
  | inl window =>
      ret (int16 (int16 (right window - left window) + 1),
           int16 (int16 (bottom window - top window) + 1), None)
  end.

(** [func (ms *MinSSH) readFromStdin(b []byte) (n int, err error)]: a new
    [ansiReader] at every call when the input is emulated. *)
Definition readFromStdin (sys : sysInfo) (turn : stdinTurn)
  : list Z * option error :=
  if emuStdin sys then
    let stdin := NewAnsiReader Stdin in
    snd (Read stdin (as_records turn))
  else as_bytes turn.

End windows.

(** ** The POSIX system file *)
Module unix.

(** [sysInfo]; [origMode] is a [*terminal.State], [None] when [nil]. *)
Record sysInfo := {
  origMode : option Z
}.

(** [&sysInfo{}] *)
Definition new_sysInfo : sysInfo := {| origMode := None |}.

Definition with_state (t : Tty) (state : Z) : Tty :=
  {| tty_state := state; tty_raw := tty_raw t;
     tty_makeRaw_err := tty_makeRaw_err t;
     tty_restore_err := tty_restore_err t;
     tty_size := tty_size t |}.

(** [terminal.MakeRaw(fd)]: the previous settings, or an error. *)
Definition terminal_MakeRaw (f : stream) : M (option Z * option error) :=
  emit (MakeRaw f) ;;
  t <~ ask tty ;;
  match tty_makeRaw_err t with
  | Some e => ret (None, Some e)
  | None =>
      put_tty (with_state t (tty_raw t (tty_state t))) ;;
      ret (Some (tty_state t), None)
  end.

(** [terminal.Restore(fd, state)] *)
Definition terminal_Restore (f : stream) (state : Z) : M (option error) :=
  emit (Restore f state) ;;
  t <~ ask tty ;;
  match tty_restore_err t with
  | Some e => ret (Some e)
  | None => put_tty (with_state t state) ;; ret None
  end.

(** [func (ms *MinSSH) changeLocalTerminalMode() (err error)], on
    [ms.sys]. *)
Definition changeLocalTerminalMode (sys : sysInfo)
  : M (sysInfo * option error) :=
  '(state, err) <~ terminal_MakeRaw Stdin ;;
  let sys := {| origMode := state |} in
  match err with
  | Some e =>
      ret (sys, Some (Errorf "failed to set stdin to raw mode: %s" e))
  | None => ret (sys, None)
  end.

(** [func (ms *MinSSH) restoreLocalTerminalMode() error], on [ms.sys]. *)
Definition restoreLocalTerminalMode (sys : sysInfo) : M (option error) :=
  match origMode sys with
  | Some state => terminal_Restore Stdin state
  | None => ret None
  end.

(** [func (ms *MinSSH) getWindowSize() (width, height int, err error)] *)
Definition getWindowSize : M (Z * Z * option error) :=
  emit GetWindowSize ;;
  t <~ ask tty ;;
  ret (tty_size t).

(** [func (ms *MinSSH) readFromStdin(b []byte) (n int, err error)] *)
Definition readFromStdin (sys : sysInfo) (turn : stdinTurn)
  : list Z * option error :=
  as_bytes turn.

End unix.

(** ** The session *)

(** The functions the build tags select. *)
Record Platform := {
  sysInfo : Type;
  new_sysInfo : sysInfo;
  changeLocalTerminalMode : sysInfo -> M (sysInfo * option error);
  restoreLocalTerminalMode : sysInfo -> M (option error);
  getWindowSize : M (Z * Z * option error);
  readFromStdin : sysInfo -> stdinTurn -> list Z * option error
}.

Definition on_windows : Platform :=
  {| sysInfo := windows.sysInfo;
     new_sysInfo := windows.new_sysInfo;
     changeLocalTerminalMode := windows.changeLocalTerminalMode;
     restoreLocalTerminalMode := windows.restoreLocalTerminalMode;
     getWindowSize := windows.getWindowSize;
     readFromStdin := windows.readFromStdin |}.

Definition on_unix : Platform :=
  {| sysInfo := unix.sysInfo;
     new_sysInfo := unix.new_sysInfo;
     changeLocalTerminalMode := unix.changeLocalTerminalMode;
     restoreLocalTerminalMode := unix.restoreLocalTerminalMode;
     getWindowSize := unix.getWindowSize;
     readFromStdin := unix.readFromStdin |}.

(** [Config], without the logger (its output is in the trace) and the key
    and host files. *)
Record Config := {
  User : string;
  Host : string;
  Port : Z;
  NoTTY : bool
}.

Definition defaultTermName : string := "xterm".

Section Session.

Context (P : Platform).

(** [MinSSH]: for each pointer and pipe, whether it is set. *)
Record MinSSH := {
  conf : Config;
  conn : bool;
  sess : bool;
  rStdin : bool;
  rStdout : bool;
  rStderr : bool;
  sys : sysInfo P
}.

(** [ms] as [Open] returns it: connected, with a session and
    [sys: &sysInfo{}]. *)
Definition opened (c : Config) : MinSSH :=
  {| conf := c; conn := true; sess := true;
     rStdin := false; rStdout := false; rStderr := false;
     sys := new_sysInfo P |}.

Definition set_rStdin (ms : MinSSH) (b : bool) : MinSSH :=
  {| conf := conf ms; conn := conn ms; sess := sess ms;
     rStdin := b; rStdout := rStdout ms; rStderr := rStderr ms;
     sys := sys ms |}.

Definition set_rStdout (ms : MinSSH) (b : bool) : MinSSH :=
  {| conf := conf ms; conn := conn ms; sess := sess ms;
     rStdin := rStdin ms; rStdout := b; rStderr := rStderr ms;
     sys := sys ms |}.

Definition set_rStderr (ms : MinSSH) (b : bool) : MinSSH :=
  {| conf := conf ms; conn := conn ms; sess := sess ms;
     rStdin := rStdin ms; rStdout := rStdout ms; rStderr := b;
     sys := sys ms |}.


(** [func (ms *MinSSH) Close()] *)
Definition Close (ms : MinSSH) : M unit :=
  err <~ restoreLocalTerminalMode P (sys ms) ;;
  match err with
  | Some e => emit (LogPrintln [AErr e])
  | None => ret tt
  end ;;
  when (sess ms) (emit SessClose) ;;
  when (conn ms) (emit ConnClose).

(** A call of the SSH session that may fail. *)
Definition request (a : action) (answer : Remote -> option error)
  : M (option error) :=
  emit a ;;
  r <~ ask remote ;;
  ret (answer r).

(** [func (ms *MinSSH) prepareRemoteTerminal() (err error)] *)
Definition prepareRemoteTerminal (ms : MinSSH) : M (MinSSH * option error) :=
  emit (Getenv "TERM") ;;
  termName <~ ask env_TERM ;;
  let termName :=
    if String.eqb termName "" then defaultTermName else termName in
  '(w, h, err) <~ getWindowSize P ;;
  match err with
  | Some e =>
      ret (ms,
           Some (Errorf "failed to get terminal width and height: %s" e))
  | None =>
  err <~ (if negb (NoTTY (conf ms))
          then request (RequestPty termName h w) rem_RequestPty
          else ret None) ;;
  match err with
  | Some e =>
      ret (ms, Some (Errorf "request for pseudo terminal failed: %s" e))
  | None =>
  err <~ request StdinPipe rem_StdinPipe ;;
  let ms := set_rStdin ms (negb (is_err err)) in
  match err with
  | Some e =>
      ret (ms, Some (Errorf "failed to get remote stdin pipe: %s" e))
  | None =>
  err <~ request StdoutPipe rem_StdoutPipe ;;
  let ms := set_rStdout ms (negb (is_err err)) in
  match err with
  | Some e =>
      ret (ms, Some (Errorf "failed to get remote stdout pipe: %s" e))
  | None =>
  err <~ request StderrPipe rem_StderrPipe ;;
  let ms := set_rStderr ms (negb (is_err err)) in
  match err with
  | Some e =>
      ret (ms, Some (Errorf "failed to get remote stderr pipe: %s" e))
  | None =>
  err <~ request Shell rem_Shell ;;
  match err with
  | Some e => ret (ms, Some (Errorf "failed to start shell: %s" e))
  | None => ret (ms, None)
  end end end end end end.





(** [func (ms *MinSSH) printExitMessage(err error)] *)
Definition printExitMessage (ms : MinSSH) (err : option error) : M unit :=
  emit (Printf "ssh connection to %s closed " [AStr (Host (conf ms))]) ;;
  match err with
  | Some e =>
      match e with
      | ExitMissingError =>
          emit (Printf "but remote didn't send exit status: %s\n" [AErr e])
      | ExitError _ => emit (Printf "with error: %s\n" [AErr e])
      | _ => emit (Printf "with unknown error: %s\n" [AErr e])
      end
  | None => emit (Println [AStr "successfully"])
  end.



End Session.

(** ** The pumps *)

(** Whether a goroutine has returned or is still in its loop, blocked on
    its next read or [select]. *)
Inductive status := Blocked | Returned.

(** One turn of the loop of the local-input goroutine, as the outside
    answers it: what standard input holds, and the outcome of a write to the
    remote stdin if the turn makes one. *)
Record stdinAnswer := {
  stdin_holds : stdinTurn;
  write_err : option error
}.

Section Pumps.

Context (P : Platform) (s : sysInfo P).

(** The third goroutine of [invokeInOutPipes]: what it does to the remote
    stdin and the log, turn by turn. *)
Fixpoint stdinPump (answers : list stdinAnswer) : list action * status :=
  match answers with
  | [] => ([], Blocked)
  | a :: answers =>
      let '(buf, err) := readFromStdin P s (stdin_holds a) in
      match err with
      | Some e =>
          (match e with
           | EOF => []
           | _ => [LogPrintf "failed to read bytes from local stdin: %s\n"
                     [AErr e]]
           end ++ [RStdinClose], Returned)
      | None =>
          if (0 <? Z.of_nat (length buf))%Z then
            match write_err a with
            | Some e =>
                ([RStdinWrite buf;
                  LogPrintf "failed to write bytes to remote stdin: %s\n"
                    [AErr e]], Returned)
            | None =>
                let '(acts, st) := stdinPump answers in
                (RStdinWrite buf :: acts, st)
            end
          else stdinPump answers
      end
  end.

End Pumps.

(** [windowChangeReq] *)
Record windowChangeReq := {
  W : Z;
  H : Z;
  Wpx : Z;
  Hpx : Z
}.

(** A [uint32] on the wire: four bytes, most significant first. *)
Definition be32 (x : Z) : list Z :=
  [ Z.shiftr x 24 mod 256; Z.shiftr x 16 mod 256;
    Z.shiftr x 8 mod 256; x mod 256 ].

(** [ssh.Marshal] of a [windowChangeReq]: the fields in order. *)
Definition Marshal (r : windowChangeReq) : list Z :=
  be32 (W r) ++ be32 (H r) ++ be32 (Wpx r) ++ be32 (Hpx r).

(** What wakes the [select] of the resize goroutine: the context is done,
    the channel is closed, or a notification arrives; in the last case the
    outside also answers the size query and the request that may follow. *)
Inductive wake :=
| CtxDone
| ChClosed
| Notified (size : Z * Z * option error) (send_err : option error).

(** One turn of the loop of [invokeResizeTerminal] after a notification:
    the last sizes [w], [h] and what the goroutine did. *)
Definition resizeTurn (wh : Z * Z) (size : Z * Z * option error)
  (send_err : option error) : (Z * Z) * list action :=
  let '(w, h) := wh in
  let '(newW, newH, err) := size in
  match err with
  | Some e =>
      (wh, [GetWindowSize;
            LogPrintf "failed to get new window size: %s\n" [AErr e]])
  | None =>
      if (newW =? w) && (newH =? h) then (wh, [GetWindowSize])
      else
        let req :=
          SendRequest "window-change" false
            (Marshal {| W := uint32 newW; H := uint32 newH;
                        Wpx := 0; Hpx := 0 |}) in
        match send_err with
        | Some e =>
            (wh, [GetWindowSize; req;
                  LogPrintf "failed to set new window size: %s\n" [AErr e]])
        | None => ((newW, newH), [GetWindowSize; req])
        end
  end.

Fixpoint resizeLoop (wh : Z * Z) (wakes : list wake) : list action * status :=
  match wakes with
  | [] => ([], Blocked)
  | CtxDone :: _ => ([], Returned)
  | ChClosed :: _ => ([], Returned)
  | Notified size send_err :: wakes =>
      let '(wh', acts) := resizeTurn wh size send_err in
      let '(acts', st) := resizeLoop wh' wakes in
      (acts ++ acts', st)
  end.

(** The goroutine of [invokeResizeTerminal]: the first size query, then the
    loop. *)
Definition resizePump (first : Z * Z * option error) (wakes : list wake)
  : list action * status :=
  let '(w, h, err) := first in
  let '(acts, st) := resizeLoop (w, h) wakes in
  (GetWindowSize ::
   match err with
   | Some e => [LogPrintf "failed to get current window size: %s\n" [AErr e]]
   | None => []
   end ++ acts, st).

(** ** The resize watcher *)

(** The goroutine of [watchTerminalResize] and the one that reads its
    channel, as a transition system.  The POSIX watcher waits on [sigC] and
    the Windows one on [ticker.C]; both are channels of capacity one and the
    loop is the same. *)
Module watcher.

(** Where the watcher is: in its [select], at [ch <- struct{}{}], or
    returned (the deferred function has run). *)
Inductive wpc := WSelect | WSend | WReturned.

(** Where the reader of [ch] is: in its [select], handling a notification,
    or returned. *)
Inductive rpc := RSelect | RHandle | RReturned.

Record state := {
  at_w : wpc;
  at_r : rpc;
  ch_len : nat;
  ch_closes : nat;
  source_ready : bool;
  ctx_done : bool
}.

(** [ch := make(chan struct{}, 1)] *)
Definition ch_cap : nat := 1.

Definition init : state :=
  {| at_w := WSelect; at_r := RSelect; ch_len := 0; ch_closes := 0;
     source_ready := false; ctx_done := false |}.

(** What may happen next: a resize signal or tick, the cancellation, and for
    each goroutine the case of its [select] that is taken or the statement
    it is at. *)
Inductive move :=
| Resize
| CancelCtx
| WatcherDone
| WatcherSource
| WatcherSend
| ReaderDone
| ReaderRecv
| ReaderHandled.

(** The state after a move, or [None] when the move is not enabled. *)
Definition step (m : move) (st : state) : option state :=
  match m with
  | Resize =>
      Some {| at_w := at_w st; at_r := at_r st; ch_len := ch_len st;
              ch_closes := ch_closes st; source_ready := true;
              ctx_done := ctx_done st |}
  | CancelCtx =>
      Some {| at_w := at_w st; at_r := at_r st; ch_len := ch_len st;
              ch_closes := ch_closes st; source_ready := source_ready st;
              ctx_done := true |}
  | WatcherDone =>
      match at_w st with
      | WSelect =>
          if ctx_done st then
            Some {| at_w := WReturned; at_r := at_r st; ch_len := ch_len st;
                    ch_closes := S (ch_closes st);
                    source_ready := source_ready st;
                    ctx_done := ctx_done st |}
          else None
      | _ => None
      end
  | WatcherSource =>
      match at_w st with
      | WSelect =>
          if source_ready st then
            Some {| at_w := WSend; at_r := at_r st; ch_len := ch_len st;
                    ch_closes := ch_closes st; source_ready := false;
                    ctx_done := ctx_done st |}
          else None
      | _ => None
      end
  | WatcherSend =>
      match at_w st with
      | WSend =>
          if (ch_len st <? ch_cap)%nat then
            Some {| at_w := WSelect; at_r := at_r st;
                    ch_len := S (ch_len st); ch_closes := ch_closes st;
                    source_ready := source_ready st;
                    ctx_done := ctx_done st |}
          else None
      | _ => None
      end
  | ReaderDone =>
      match at_r st with
      | RSelect =>
          if ctx_done st || ((ch_len st =? 0)%nat && (0 <? ch_closes st)%nat)
          then
            Some {| at_w := at_w st; at_r := RReturned; ch_len := ch_len st;
                    ch_closes := ch_closes st;
                    source_ready := source_ready st;
                    ctx_done := ctx_done st |}
          else None
      | _ => None
      end
  | ReaderRecv =>
      match at_r st with
      | RSelect =>
          if (0 <? ch_len st)%nat then
            Some {| at_w := at_w st; at_r := RHandle;
                    ch_len := pred (ch_len st); ch_closes := ch_closes st;
                    source_ready := source_ready st;
                    ctx_done := ctx_done st |}
          else None
      | _ => None
      end
  | ReaderHandled =>
      match at_r st with
      | RHandle =>
          Some {| at_w := at_w st; at_r := RSelect; ch_len := ch_len st;
                  ch_closes := ch_closes st;
                  source_ready := source_ready st;
                  ctx_done := ctx_done st |}
      | _ => None
      end
  end.

(** A schedule, move by move; [None] when it asks for a move that is not
    enabled. *)
Fixpoint run (moves : list move) (st : state) : option state :=
  match moves with
  | [] => Some st
  | m :: moves =>
      match step m st with
      | Some st' => run moves st'
      | None => None
      end
  end.

(** The watcher can take no step of its own. *)
Definition watcher_stuck (st : state) : Prop :=
  step WatcherDone st = None /\ step WatcherSource st = None
  /\ step WatcherSend st = None.

(** From [st] on, whatever the schedule, the watcher neither returns nor
    closes [ch]. *)
Definition never_returns (st : state) : Prop :=
  forall moves st', run moves st = Some st' ->
    at_w st' = WSend /\ ch_closes st' = ch_closes st /\ watcher_stuck st'.

End watcher.

(** ** The mapping table of the input translator, as specified *)

(** The keys the table names. *)
Inductive Key :=
| KUp | KDown | KRight | KLeft | KHome | KEnd
| KBackspace | KPause | KEscape
| KInsert | KDelete | KPageUp | KPageDown
| KF1 | KF2 | KF3 | KF4
| KF5 | KF6 | KF7 | KF8 | KF9 | KF10 | KF11 | KF12
| KOther.

(** The key a Windows virtual-key code stands for (the documented values of
    VK_BACK, VK_PAUSE, ... VK_F12). *)
Definition key_of_code (code : Z) : Key :=
  if code =? 0x26 then KUp else if code =? 0x28 then KDown
  else if code =? 0x27 then KRight else if code =? 0x25 then KLeft
  else if code =? 0x24 then KHome else if code =? 0x23 then KEnd
  else if code =? 0x08 then KBackspace else if code =? 0x13 then KPause
  else if code =? 0x1B then KEscape
  else if code =? 0x2D then KInsert else if code =? 0x2E then KDelete
  else if code =? 0x21 then KPageUp else if code =? 0x22 then KPageDown
  else if code =? 0x70 then KF1 else if code =? 0x71 then KF2
  else if code =? 0x72 then KF3 else if code =? 0x73 then KF4
  else if code =? 0x74 then KF5 else if code =? 0x75 then KF6
  else if code =? 0x76 then KF7 else if code =? 0x77 then KF8
  else if code =? 0x78 then KF9 else if code =? 0x79 then KF10
  else if code =? 0x7A then KF11 else if code =? 0x7B then KF12
  else KOther.

(** [ESC [ <letter>], or [ESC [ 1 ; 5 <letter>] when Ctrl is held. *)
Definition csi (ctrl : bool) (letter : string) : option (list Z) :=
  if ctrl then Some (ESC :: bytes "[1;5" ++ bytes letter)
  else Some (ESC :: bytes "[" ++ bytes letter).

(** The table, row by row; [None] is "emit nothing". *)
Definition translate (k : keyEventRecord) : option (list Z) :=
  match key_of_code (virtualKeyCode k) with
  | KUp => csi (ctrl_held k) "A"
  | KDown => csi (ctrl_held k) "B"
  | KRight => csi (ctrl_held k) "C"
  | KLeft => csi (ctrl_held k) "D"
  | KHome => csi (ctrl_held k) "H"
  | KEnd => csi (ctrl_held k) "F"
  | KBackspace =>
      if alt_held k && negb (ctrl_held k) then Some [ESC; 0x08]
      else Some [0x7F]
  | KPause => Some [0x1A]
  | KEscape => Some [0x1B]
  | KInsert => Some (ESC :: bytes "[2~")
  | KDelete => Some (ESC :: bytes "[3~")
  | KPageUp => Some (ESC :: bytes "[5~")
  | KPageDown => Some (ESC :: bytes "[6~")
  | KF1 => Some (ESC :: bytes "OP")
  | KF2 => Some (ESC :: bytes "OQ")
  | KF3 => Some (ESC :: bytes "OR")
  | KF4 => Some (ESC :: bytes "OS")
  | KF5 => Some (ESC :: bytes "[15~")
  | KF6 => Some (ESC :: bytes "[17~")
  | KF7 => Some (ESC :: bytes "[18~")
  | KF8 => Some (ESC :: bytes "[19~")
  | KF9 => Some (ESC :: bytes "[20~")
  | KF10 => Some (ESC :: bytes "[21~")
  | KF11 => Some (ESC :: bytes "[23~")
  | KF12 => Some (ESC :: bytes "[24~")
  | KOther =>
      if (0x20 <=? unicodeChar k) && (unicodeChar k <=? 0x7E)
         && alt_held k && negb (ctrl_held k)
      then Some [ESC; unicodeChar k]
      else None
  end.

(** ** Vocabulary of the statements *)

(** A key-down record of a key with no mapping that carries [char]. *)
Definition typed (char : Z) : inputRecord :=
  {| eventType := keyEvent;
     event := {| keyDown := 1; repeatCount := 1; virtualKeyCode := 0;
                 virtualScanCode := 0; unicodeChar := char;
                 controlKeyState := 0 |} |}.

(** Ctrl+Right-Arrow, pressed. *)
Definition ctrl_right_arrow : keyEventRecord :=
  {| keyDown := 1; repeatCount := 1; virtualKeyCode := 0x27;
     virtualScanCode := 0x4D; unicodeChar := 0;
     controlKeyState := Z.lor left_ctrl_pressed enhanced_key |}.

Definition is_go (a : action) : bool :=
  match a with Go _ => true | _ => false end.


Definition is_set_mode_of (f : stream) (a : action) : bool :=
  match a, f with
  | SetConsoleMode Stdin _, Stdin
  | SetConsoleMode Stdout _, Stdout
  | SetConsoleMode Stderr _, Stderr => true
  | _, _ => false
  end.

Definition is_close (a : action) : bool :=
  match a with RStdinClose => true | _ => false end.

Definition is_request (a : action) : bool :=
  match a with SendRequest _ _ _ => true | _ => false end.

(** How many of [acts] satisfy [p]. *)
Fixpoint count (p : action -> bool) (acts : list action) : nat :=
  match acts with
  | [] => 0%nat
  | a :: acts => ((if p a then 1 else 0) + count p acts)%nat
  end.

(** What a run added to the trace of the world it started in. *)
Definition added (w w' : World) : list action :=
  drop (length (trace w)) (trace w').

Section PumpVocabulary.

Context (P : Platform) (s : sysInfo P).

(** The read of this turn reports end of stream or an error. *)
Definition read_ends (a : stdinAnswer) : bool :=
  is_err (snd (readFromStdin P s (stdin_holds a))).

(** The read of this turn succeeds, and so does the write if there is one. *)
Definition turn_passes (a : stdinAnswer) : bool :=
  negb (read_ends a)
  && ((length (fst (readFromStdin P s (stdin_holds a))) =? 0)%nat
      || negb (is_err (write_err a))).

End PumpVocabulary.

(** ** Worlds for the examples *)

(** A console that accepts every mode. *)
Definition plain_console : Console :=
  {| con_mode := fun _ => inl 7;
     con_refuses := fun _ _ => None;
     con_window := inl {| left := 0; top := 0; right := 79; bottom := 23 |} |}.

(** A console that refuses the modes with the given bits set on [f], with
    "invalid parameter". *)
Definition console_refusing (f : stream) (bits : Z) : Console :=
  {| con_mode := fun _ => inl 7;
     con_refuses := fun g mode =>
       match f, g with
       | Stdin, Stdin | Stdout, Stdout | Stderr, Stderr =>
           if Z.land mode bits =? 0 then None else Some 87
       | _, _ => None
       end;
     con_window := inl {| left := 0; top := 0; right := 79; bottom := 23 |} |}.

Definition plain_tty : Tty :=
  {| tty_state := 1; tty_raw := fun _ => 0;
     tty_makeRaw_err := None; tty_restore_err := None;
     tty_size := (80, 24, None) |}.


Definition plain_remote : Remote :=
  {| rem_RequestPty := None; rem_StdinPipe := None; rem_StdoutPipe := None;
     rem_StderrPipe := None; rem_Shell := None;
     rem_ending := SessionWait None |}.

Definition world_of (c : Console) (t : Tty) : World :=
  {| console := c; tty := t; remote := plain_remote;
     env_TERM := "xterm"; trace := [] |}.

Definition example_conf : Config :=
  {| User := "root"; Host := "example.org"; Port := 22; NoTTY := false |}.

(** The mode saved for a stream. *)
Definition saved_mode (sys : windows.sysInfo) (f : stream) : Z :=
  match f with
  | Stdin => windows.stdinMode sys
  | Stdout => windows.stdoutMode sys
  | Stderr => windows.stderrMode sys
  end.

(** The mode of the first [SetConsoleMode] on [f]. *)
Fixpoint first_set_mode (f : stream) (acts : list action) : option Z :=
  match acts with
  | [] => None
  | a :: acts =>
      if is_set_mode_of f a then
        match a with SetConsoleMode _ mode => Some mode | _ => None end
      else first_set_mode f acts
  end.

(** Three resizes while the reader is still handling the first, then the
    cancellation, which the reader takes at its next [select]. *)
Definition stuck_schedule : list watcher.move :=
  [ watcher.Resize; watcher.WatcherSource; watcher.WatcherSend;
    watcher.ReaderRecv;
    watcher.Resize; watcher.WatcherSource; watcher.WatcherSend;
    watcher.Resize; watcher.WatcherSource;
    watcher.CancelCtx;
    watcher.ReaderHandled; watcher.ReaderDone ].

(** ** Vocabulary of the proofs *)

(** The codes that have a row of their own in the table. *)
Definition mapped_codes : list Z :=
  [8; 19; 27; 33; 34; 35; 36; 37; 38; 39; 40; 45; 46;
   112; 113; 114; 115; 116; 117; 118; 119; 120; 121; 122; 123].

(** Every action [m] adds to the trace satisfies [ok]. *)
Definition emits {A} (m : M A) (ok : action -> bool) : Prop :=
  forall w, exists acts,
    trace (snd (m w)) = trace w ++ acts /\ forallb ok acts = true.

(** Not the start of a goroutine. *)
Definition quiet (a : action) : bool := negb (is_go a).




(** The watcher waits at its send, the channel is full and its reader has
    returned. *)
Definition abandoned (st : watcher.state) : Prop :=
  watcher.at_w st = watcher.WSend
  /\ watcher.at_r st = watcher.RReturned
  /\ watcher.ch_len st = watcher.ch_cap.


(** ** More vocabulary: the key reader *)

(** The record is a key-down event. *)
Definition is_key_down (record : inputRecord) : bool :=
  (eventType record =? keyEvent) && (keyDown (event record) =? 1).

(** [k] with another control key state. *)
Definition with_controlKeyState (k : keyEventRecord) (state : Z)
  : keyEventRecord :=
  {| keyDown := keyDown k; repeatCount := repeatCount k;
     virtualKeyCode := virtualKeyCode k;
     virtualScanCode := virtualScanCode k; unicodeChar := unicodeChar k;
     controlKeyState := state |}.

(** The two halves form a surrogate pair. *)
Definition is_pair (r1 r2 : Z) : bool :=
  (0xD800 <=? r1) && (r1 <? 0xDC00) && (0xDC00 <=? r2) && (r2 <? 0xE000).

(** ** More vocabulary: the terminal modes *)

(** The console mode the world holds for [f]. *)
Definition mode_in (w : World) (f : stream) : Z + Z :=
  con_mode (console w) f.

(** A console whose three handles hold [mode], with a given refusal rule
    and no window. *)
Definition console_with (mode : stream -> Z + Z)
  (refuses : stream -> Z -> option Z) : Console :=
  {| con_mode := mode; con_refuses := refuses; con_window := inr 6 |}.

Definition is_set_mode (a : action) : bool :=
  match a with SetConsoleMode _ _ => true | _ => false end.

(** [Q] holds of the result of [m] and of the world it leaves. *)
Definition wp {A} (m : M A) (Q : A -> World -> Prop) (w : World) : Prop :=
  Q (fst (m w)) (snd (m w)).

(** The world with one more action in its trace. *)
Definition after (w : World) (a : action) : World :=
  {| console := console w; tty := tty w; remote := remote w;
     env_TERM := env_TERM w; trace := trace w ++ [a] |}.

(** The world after the console accepted [mode] on [f]. *)
Definition accepted (w : World) (f : stream) (mode : Z) : World :=
  {| console := windows.with_mode (console w) f mode; tty := tty w;
     remote := remote w; env_TERM := env_TERM w;
     trace := trace w ++ [SetConsoleMode f mode] |}.

(** A console whose handles all hold [mode] and that refuses on [f] the
    modes with one of [bits] set. *)
Definition console_holding (mode : Z) (f : stream) (bits : Z) : Console :=
  {| con_mode := fun _ => inl mode;
     con_refuses := con_refuses (console_refusing f bits);
     con_window := con_window (console_refusing f bits) |}.

(** ** More vocabulary: the session *)

(** A world whose remote command exits with status 1. *)
Definition world_exit_1 : World :=
  {| console := plain_console; tty := plain_tty;
     remote :=
       {| rem_RequestPty := None; rem_StdinPipe := None;
          rem_StdoutPipe := None; rem_StderrPipe := None; rem_Shell := None;
          rem_ending := SessionWait (Some (ExitError 1)) |};
     env_TERM := ""; trace := [] |}.

(** Every request of [prepareRemoteTerminal] is granted. *)
Definition grants_all (r : Remote) : bool :=
  negb (is_err (rem_RequestPty r)) && negb (is_err (rem_StdinPipe r))
  && negb (is_err (rem_StdoutPipe r)) && negb (is_err (rem_StderrPipe r))
  && negb (is_err (rem_Shell r)).

(** The bytes the actions write to the remote stdin, in order. *)
Fixpoint written (acts : list action) : list Z :=
  match acts with
  | [] => []
  | RStdinWrite data :: acts => data ++ written acts
  | _ :: acts => written acts
  end.

(** The bytes the reads of the turns deliver, in order. *)
Definition delivered (P : Platform) (s : sysInfo P)
  (answers : list stdinAnswer) : list Z :=
  concat (map (fun a => fst (readFromStdin P s (stdin_holds a))) answers).

(** A wake-up that cannot lead to a request while the last sizes are [w],
    [h]: the end of the loop, a failed size query, or the same size. *)
Definition no_news (w h : Z) (wk : wake) : bool :=
  match wk with
  | CtxDone | ChClosed => true
  | Notified (_, _, Some _) _ => true
  | Notified (newW, newH, None) _ => (newW =? w) && (newH =? h)
  end.

(** ** More vocabulary: the watcher *)

(** What holds of the watcher and its channel in every state a schedule
    can reach: the channel never holds more than its capacity, it is closed
    at most once, only by the watcher's return, and the watcher is never at
    its send after the close. *)
Definition watcher_safe (st : watcher.state) : Prop :=
  (watcher.ch_len st <= watcher.ch_cap)%nat
  /\ (watcher.at_w st = watcher.WReturned -> watcher.ch_closes st = 1%nat)
  /\ (watcher.at_w st <> watcher.WReturned -> watcher.ch_closes st = 0%nat).

(** The moves that let a cancelled watcher return while the reader of its
    channel is still there. *)
Definition way_out (st : watcher.state) : list watcher.move :=
  match watcher.at_w st with
  | watcher.WReturned => []
  | watcher.WSelect => [watcher.WatcherDone]
  | watcher.WSend =>
      if (watcher.ch_len st <? watcher.ch_cap)%nat
      then [watcher.WatcherSend; watcher.WatcherDone]
      else
        match watcher.at_r st with
        | watcher.RHandle =>
            [watcher.ReaderHandled; watcher.ReaderRecv;
             watcher.WatcherSend; watcher.WatcherDone]
        | _ =>
            [watcher.ReaderRecv; watcher.WatcherSend; watcher.WatcherDone]
        end
  end.

(** ** The configuration ([config.go]) *)

(** [os.Getenv]: the empty string for a variable that is not set. *)
Definition Getenv_in (env : gmap string string) (name : string) : string :=
  default ""%string (env !! name).

(** The [for] loop of [getDefaultUser] over the remaining keys. *)
Fixpoint getDefaultUser_loop (env : gmap string string)
  (envKeys : list string) (username : string) : string :=
  match envKeys with
  | [] => username
  | envKey :: envKeys =>
      let username := Getenv_in env envKey in
      if negb (String.eqb username "") then username
      else getDefaultUser_loop env envKeys username
  end.

Definition userKeys : list string :=
  ["LOGNAME"; "USER"; "LNAME"; "USERNAME"]%string.

(** [func getDefaultUser() (username string)] *)
Definition getDefaultUser (env : gmap string string) : string :=
  getDefaultUser_loop env userKeys "".

(** ** The authentication prompts (the file that declares [MinSSH]) *)

(** The [for i, q := range questions] loop of
    [keyboardInteractiveChallenge]; [readPassword i q] is the outcome of the
    call of [readPassword(q)] made for question [i]. *)
Fixpoint challenge_loop (readPassword : nat -> string -> string * option error)
  (i : nat) (questions : list string) (answers : list string)
  : list string * option error :=
  match questions with
  | [] => (answers, None)
  | q :: questions =>
      let '(res, err) := readPassword i q in
      match err with
      | Some e => (answers, Some e)
      | None =>
          challenge_loop readPassword (S i) questions (<[i:=res]> answers)
      end
  end.

(** [func (ms *MinSSH) keyboardInteractiveChallenge(user, instruction
    string, questions []string, echos []bool) (answers []string, err
    error)]: what it prints itself, and what it returns.  The two
    [append(strs)] calls have no element to append. *)
Definition keyboardInteractiveChallenge (c : Config)
  (readPassword : nat -> string -> string * option error)
  (user instruction : string) (questions : list string) (echos : list bool)
  : list action * (list string * option error) :=
  let answers := replicate (length questions) ""%string in
  let strs : list string := [] in
  let printed :=
    if (0 <? length questions)%nat then
      let strs := if negb (String.eqb user "") then strs ++ [] else strs in
      let strs :=
        if negb (String.eqb instruction "") then strs ++ [] else strs in
      if (0 <? length strs)%nat
      then [Println [AStr (String.concat " " strs)]]
      else [Printf "Keyboard interactive challenge for %s@%s\n"
              [AStr (User c); AStr (Host c)]]
    else [] in
  (printed, challenge_loop readPassword 0 questions answers).

Section Asking.

(** [strings.ToLower(strings.TrimSpace(answer))] *)
Context (normalize : string -> string).

(** The [for] loop of [askAddingUnknownHostKey] over the lines that
    [b.ReadString] returns, each with its error; [None] when the lines run
    out before an answer (the loop is waiting).  [fmt.Print(s)] is recorded
    as the [Printf] of [s] alone. *)
Fixpoint ask_loop (lines : list (string * option error))
  : list action * option (bool * option error) :=
  match lines with
  | [] => ([], None)
  | (answer, err) :: lines =>
      match err with
      | Some e =>
          ([], Some (false, Some (Errorf "failed to read answer: %s" e)))
      | None =>
          let answer := normalize answer in
          if String.eqb answer "yes" then ([], Some (true, None))
          else if String.eqb answer "no" then ([], Some (false, None))
          else
            let '(printed, r) := ask_loop lines in
            (Printf "%s" [AStr "Please type 'yes' or 'no': "] :: printed, r)
      end
  end.

(** [func askAddingUnknownHostKey(address string, remote net.Addr, key
    ssh.PublicKey) (bool, error)]; [remote] and [fingerprint] stand for
    [remote.String()] and [ssh.FingerprintSHA256(key)]. *)
Definition askAddingUnknownHostKey (address remote fingerprint : string)
  (lines : list (string * option error))
  : list action * option (bool * option error) :=
  let '(printed, r) := ask_loop lines in
  ([Printf "The authenticity of host '%s (%s)' can't be established.\n"
      [AStr address; AStr remote];
    Printf "RSA key fingerprint is %s\n" [AStr fingerprint];
    Printf "Are you sure you want to continue connecting (yes/no)? " []]
   ++ printed, r).

(** The line is read without error and is neither yes nor no. *)
Definition unclear (line : string * option error) : bool :=
  negb (is_err (snd line))
  && negb (String.eqb (normalize (fst line)) "yes")
  && negb (String.eqb (normalize (fst line)) "no").

End Asking.

(** ** The host key callback (the file that declares [MinSSH]) *)

(** What the calls of [verifyAndAppendNew] meet: the error of
    [knownhosts.New], the error of the host key callback, whether that error
    is a [*knownhosts.KeyError] and how many keys its [Want] lists, what the
    user answers, and the errors of opening the first known-hosts file and
    of writing to it. *)
Record hostKeyAnswers := {
  hk_load : option error;
  hk_check : option error;
  hk_is_KeyError : bool;
  hk_want : nat;
  hk_ask : bool * option error;
  hk_open : option error;
  hk_write : option error
}.

(** What [verifyAndAppendNew] does, in order. *)
Inductive hostKeyAction :=
| LoadKnownHosts (files : list string)
| CheckHostKey (hostname remote : string)
| AskAdding (hostname remote : string)
| OpenAppend (path : string)
| WriteLine (addrs : list string)
| CloseFile.

Section HostKey.

(** [err.Error()] *)
Context (Error : error -> string).

(** [func (ms *MinSSH) verifyAndAppendNew(hostname string, remote net.Addr,
    key ssh.PublicKey) error], as in the copy of the file that has
    [StrictHostKeyChecking]; the other copy always asks, as this one does
    with [strict = true].  [remote] stands for [remote.String()], and
    [WriteLine addrs] for writing [knownhosts.Line(addrs, key)] and a
    newline. *)
Definition verifyAndAppendNew (strict : bool) (KnownHostsFiles : list string)
  (hostname remote : string) (a : hostKeyAnswers)
  : list hostKeyAction * option error :=
  match KnownHostsFiles with
  | [] => ([], Some (OtherError "there is no knownhosts file"))
  | first :: _ =>
  match hk_load a with
  | Some e =>
      ([LoadKnownHosts KnownHostsFiles],
       Some (Errorf "failed to load knownhosts files: %s" e))
  | None =>
  match hk_check a with
  | None => ([LoadKnownHosts KnownHostsFiles; CheckHostKey hostname remote],
             None)
  | Some err =>
  if negb (hk_is_KeyError a) || (0 <? hk_want a)%nat then
    ([LoadKnownHosts KnownHostsFiles; CheckHostKey hostname remote],
     Some err)
  else
  let asked := if strict then [AskAdding hostname remote] else [] in
  let refused :=
    if strict then
      let '(answer, err) := hk_ask a in
      if is_err err || negb answer then
        let msg := "host key verification failed"%string in
        let msg :=
          match err with
          | Some e => (msg ++ ": " ++ Error e)%string
          | None => msg
          end in
        Some (OtherError msg)
      else None
    else None in
  match refused with
  | Some e =>
      ([LoadKnownHosts KnownHostsFiles; CheckHostKey hostname remote]
       ++ asked, Some e)
  | None =>
  match hk_open a with
  | Some e =>
      ([LoadKnownHosts KnownHostsFiles; CheckHostKey hostname remote]
       ++ asked ++ [OpenAppend first],
       Some (Errorf "failed to add new host key: %s" e))
  | None =>
  let addrs :=
    if String.eqb remote hostname then [hostname] else [hostname; remote] in
  ([LoadKnownHosts KnownHostsFiles; CheckHostKey hostname remote]
   ++ asked ++ [OpenAppend first; WriteLine addrs; CloseFile],
   match hk_write a with
   | Some e => Some (Errorf "failed to add new host key: %s" e)
   | None => None
   end)
  end end end end end.

End HostKey.

Definition is_ask (a : hostKeyAction) : bool :=
  match a with AskAdding _ _ => true | _ => false end.

Definition is_file_action (a : hostKeyAction) : bool :=
  match a with OpenAppend _ | WriteLine _ | CloseFile => true | _ => false end.

(** The host key callback found the host unknown: a [KeyError] that wants
    no other key. *)
Definition unknown_host (a : hostKeyAnswers) : bool :=
  is_err (hk_check a) && hk_is_KeyError a && (hk_want a =? 0)%nat.

(** Answers for an unknown host that the user accepts, with every file
    operation succeeding. *)
Definition accepting_answers : hostKeyAnswers :=
  {| hk_load := None; hk_check := Some (OtherError "knownhosts: key is unknown");
     hk_is_KeyError := true; hk_want := 0; hk_ask := (true, None);
     hk_open := None; hk_write := None |}.

(** Answers for a host whose key differs from the recorded one. *)
Definition mismatch_answers : hostKeyAnswers :=
  {| hk_load := None; hk_check := Some (OtherError "knownhosts: key mismatch");
     hk_is_KeyError := true; hk_want := 1; hk_ask := (true, None);
     hk_open := None; hk_write := None |}.

(** ** The command line (the [main] package) *)

Definition defaultKnownHostsFiles : list string :=
  ["known_hosts"; "known_hosts2"]%string.

Definition defaultIdentityFiles : list string :=
  ["id_rsa"; "id_dsa"; "id_ecdsa"; "id_ed25519"]%string.

Definition Version : string := "v0.1.0".

(** [func version() (ver string)], with the two strings the packaging
    script embeds. *)
Definition version (commitHash buildDate : string) : string :=
  let ver := Version in
  let ver :=
    if negb (String.eqb commitHash "") then (ver ++ "-" ++ commitHash)%string
    else ver in
  let ver :=
    if negb (String.eqb buildDate "")
    then (ver ++ " BuildDate: " ++ buildDate)%string
    else ver in
  ver.

(** [strings.Index(s, "@")]: the index of the first "@", or -1. *)
Fixpoint Index_at (s : string) : Z :=
  match s with
  | EmptyString => -1
  | String c s' =>
      if Ascii.eqb c "@" then 0
      else let i := Index_at s' in if i =? -1 then -1 else i + 1
  end.

(** [s[:i]] and [s[i:]] *)
Definition slice_to (s : string) (i : Z) : string :=
  substring 0 (Z.to_nat i) s.

Definition slice_from (s : string) (i : Z) : string :=
  substring (Z.to_nat i) (String.length s - Z.to_nat i) s.

(** The values the flag set holds after [a.flagSet.Parse]: one field per
    flag, and the remaining arguments. *)
Record parsedFlags := {
  flag_i : list string;
  flag_p : Z;
  flag_s : bool;
  flag_E : string;
  flag_U : bool;
  flag_T : bool;
  flag_V : bool;
  flag_args : list string
}.

(** The fields of [minssh.Config] that [parseArgs] touches; [a_logFile] is
    the path of the log file the logger writes to, if any. *)
Record appConf := {
  a_User : string;
  a_Host : string;
  a_Port : Z;
  a_IdentityFiles : list string;
  a_KnownHostsFiles : list string;
  a_Command : string;
  a_IsSubsystem : bool;
  a_NoTTY : bool;
  a_logFile : option string
}.

(** How [parseArgs] ends: the process exits after printing the version, or
    the function returns, with what it wrote to standard error. *)
Inductive parseResult :=
| ExitAfterVersion (printed : string)
| ParseReturned (conf : appConf) (stderr : list action) (err : option error).

Section ParseArgs.

(** [filepath.Join], whether [os.Lstat] succeeds on a path, and the error
    of opening a log file. *)
Context (Join : list string -> string) (Lstat_ok : string -> bool)
  (open_log : string -> option error).

Context (commitHash buildDate : string).

(** [func (a *app) parseArgs() (err error)] for an [app] with directory
    [dir], home directory [homeDir] and configuration [conf], once the flag
    set has parsed the arguments into [fl].  The flags [-i], [-p], [-s] and
    [-T] are bound to fields of the configuration, [-i] by appending. *)
Definition parseArgs (dir homeDir : string) (conf : appConf)
  (fl : parsedFlags) : parseResult :=
  let IdentityFiles := a_IdentityFiles conf ++ flag_i fl in
  if flag_V fl then ExitAfterVersion (version commitHash buildDate)
  else
  let IdentityFiles :=
    if (length IdentityFiles =? 0)%nat then
      let IdentityFiles :=
        fold_left
          (fun ids f =>
             let f := Join [dir; f] in
             if Lstat_ok f then ids ++ [] else ids)
          defaultIdentityFiles IdentityFiles in
      if flag_U fl then
        fold_left
          (fun ids f =>
             let f := Join [homeDir; ".ssh"%string; f] in
             if Lstat_ok f then ids ++ [f] else ids)
          defaultIdentityFiles IdentityFiles
      else IdentityFiles
    else IdentityFiles in
  let KnownHostsFiles :=
    if flag_U fl then
      fold_left
        (fun files f =>
           let f := Join [homeDir; ".ssh"%string; f] in
           if Lstat_ok f then files ++ [f] else files)
        defaultKnownHostsFiles (a_KnownHostsFiles conf)
    else a_KnownHostsFiles conf in
  let '(logFile, stderr) :=
    if negb (String.eqb (flag_E fl) "") then
      match open_log (flag_E fl) with
      | Some e =>
          (a_logFile conf,
           [Printf "failed to open logfile: %s\n" [AErr e];
            Println [AStr "will not log, just ignore it"]])
      | None => (Some (flag_E fl), [])
      end
    else (a_logFile conf, []) in
  let conf :=
    {| a_User := a_User conf; a_Host := a_Host conf; a_Port := flag_p fl;
       a_IdentityFiles := IdentityFiles;
       a_KnownHostsFiles := KnownHostsFiles;
       a_Command := a_Command conf; a_IsSubsystem := flag_s fl;
       a_NoTTY := flag_T fl; a_logFile := logFile |} in
  let userHost := nth 0 (flag_args fl) ""%string in
  if String.eqb userHost "" then
    ParseReturned conf stderr
      (Some (OtherError "ssh server host must be specified"))
  else
  let i := Index_at userHost in
  let '(User, Host) :=
    if negb (i =? -1)
    then (slice_to userHost i, slice_from userHost (i + 1))
    else (a_User conf, userHost) in
  let Command :=
    if (1 <? length (flag_args fl))%nat
    then String.concat " " (tl (flag_args fl))
    else a_Command conf in
  ParseReturned
    {| a_User := User; a_Host := Host; a_Port := a_Port conf;
       a_IdentityFiles := a_IdentityFiles conf;
       a_KnownHostsFiles := a_KnownHostsFiles conf;
       a_Command := Command; a_IsSubsystem := a_IsSubsystem conf;
       a_NoTTY := a_NoTTY conf; a_logFile := a_logFile conf |}
    stderr None.

End ParseArgs.

(** The configuration a returning [parseArgs] leaves. *)
Definition parsed_conf (r : parseResult) : option appConf :=
  match r with
  | ExitAfterVersion _ => None
  | ParseReturned conf _ _ => Some conf
  end.


(** The configuration of [NewConfig] for a user, as far as [parseArgs]
    sees it. *)
Definition new_appConf (user : string) : appConf :=
  {| a_User := user; a_Host := ""; a_Port := 22; a_IdentityFiles := [];
     a_KnownHostsFiles := []; a_Command := ""; a_IsSubsystem := false;
     a_NoTTY := false; a_logFile := None |}.

(** The flags of a command line that holds only the given arguments. *)
Definition flags_of_args (args : list string) : parsedFlags :=
  {| flag_i := []; flag_p := 22; flag_s := false; flag_E := "";
     flag_U := false; flag_T := false; flag_V := false; flag_args := args |}.

(** ** The controlling terminal (the POSIX system file with [openTTY]) *)

Definition pathTTY : string := "/dev/tty".

(** An [*os.File]: a standard stream, or the file a call of [os.OpenFile]
    returned, named by the number of the call. *)
Inductive ttyFile :=
| StdFile (f : stream)
| OpenedFile (call : nat).

(** What [openTTY] meets: whether the standard input and output are
    terminals, and the error of each [os.OpenFile] it may make. *)
Record ttyAnswers := {
  stdin_is_terminal : bool;
  stdout_is_terminal : bool;
  open_in_err : option error;
  open_out_err : option error
}.

(** A call of [os.OpenFile] with the number of the file it returned, or
    [None] when it failed; a call of [Close]. *)
Inductive ttyAction :=
| OpenFile (path : string) (returned : option nat)
| FileClose (file : ttyFile).

(** [func openTTY() (ttyin, ttyout *os.File, err error)]; [None] is a [nil]
    file. *)
Definition openTTY (a : ttyAnswers)
  : list ttyAction * (option ttyFile * option ttyFile * option error) :=
  let '(opened_in, ttyin, err) :=
    if stdin_is_terminal a then ([], Some (StdFile Stdin), None)
    else
      match open_in_err a with
      | Some e => ([OpenFile pathTTY None], None, Some e)
      | None => ([OpenFile pathTTY (Some 0%nat)], Some (OpenedFile 0), None)
      end in
  match err with
  | Some e => (opened_in, (None, None, Some e))
  | None =>
      if stdout_is_terminal a
      then (opened_in, (ttyin, Some (StdFile Stdout), None))
      else
        match open_out_err a with
        | Some e => (opened_in ++ [OpenFile pathTTY None], (None, None, Some e))
        | None =>
            (opened_in ++ [OpenFile pathTTY (Some 1%nat)],
             (ttyin, Some (OpenedFile 1), None))
        end
  end.

Definition is_std (f : stream) (file : ttyFile) : bool :=
  match file, f with
  | StdFile Stdin, Stdin | StdFile Stdout, Stdout | StdFile Stderr, Stderr =>
      true
  | _, _ => false
  end.

(** [func closeTTY(ttyin, ttyout *os.File)] *)
Definition closeTTY (ttyin ttyout : ttyFile) : list ttyAction :=
  (if negb (is_std Stdin ttyin) then [FileClose ttyin] else [])
  ++ (if negb (is_std Stdout ttyout) then [FileClose ttyout] else []).

(** The files the actions opened, and those they closed. *)
Fixpoint files_opened (acts : list ttyAction) : list ttyFile :=
  match acts with
  | [] => []
  | OpenFile _ (Some call) :: acts => OpenedFile call :: files_opened acts
  | _ :: acts => files_opened acts
  end.

Fixpoint files_closed (acts : list ttyAction) : list ttyFile :=
  match acts with
  | [] => []
  | FileClose file :: acts => file :: files_closed acts
  | OpenFile _ _ :: acts => files_closed acts
  end.

(** ** The exit message of the copy with a quiet mode *)

(** Where a string is printed: [fmt.Printf(s)] or
    [fmt.Fprintf(ttyout, s)]. *)
Inductive printed :=
| OnStdout (s : string)
| OnFile (file : ttyFile) (s : string).

(** [func directedPrintf(quietMode bool, ttyout *os.File, stringToPrint
    string)] *)
Definition directedPrintf (quietMode : bool) (ttyout : option ttyFile)
  (stringToPrint : string) : list printed :=
  if negb quietMode then
    match ttyout with
    | Some file => [OnFile file stringToPrint]
    | None => [OnStdout stringToPrint]
    end
  else [].

Section QuietExit.

(** [fmt.Sprintf] *)
Context (Sprintf : string -> list arg -> string).

(** [func (ms *MinSSH) printExitMessage(err error)] of the copy of the file
    whose configuration has [QuietMode]. *)
Definition printExitMessage_with_quiet (QuietMode : bool) (Host : string)
  (err : option error) : list printed :=
  let stringToPrint := Sprintf "ssh connection to %s closed " [AStr Host] in
  match err with
  | Some e =>
      let stringToPrint :=
        (stringToPrint ++
         match e with
         | ExitMissingError =>
             Sprintf "but remote didn't send exit status: %s\n" [AErr e]
         | ExitError _ => Sprintf "with error: %s\n" [AErr e]
         | _ => Sprintf "with unknown error: %s\n" [AErr e]
         end)%string in
      [OnStdout stringToPrint]
  | None =>
      let stringToPrint := (stringToPrint ++ "successfully\n")%string in
      let ttyout : option ttyFile := None in
      directedPrintf QuietMode ttyout stringToPrint
  end.

End QuietExit.

(** * Theorems *)

(** ** The input translator *)

Lemma fmt_c_ascii c : 0 <= c <= 0x7F -> fmt_c c = [c].
Proof.
  intros Hc. unfold fmt_c, utf8.EncodeRune, utf8.rune1Max, utf8.byte.
  rewrite (Z.mod_small c (2 ^ 32)) by lia.
  destruct (Z.leb_spec c 127); [|lia].
  rewrite Z.mod_small by lia. reflexivity.
Qed.

Lemma mapped_or_not (code : Z) :
  In code mapped_codes \/ Forall (fun n => code <> n) mapped_codes.
Proof.
  destruct (in_dec Z.eq_dec code mapped_codes) as [Hin|Hout]; [now left|].
  right. apply List.Forall_forall. intros n Hn ->. contradiction.
Qed.

Lemma toAnsiSeq_mapped ar k :
  In (virtualKeyCode k) mapped_codes -> toAnsiSeq ar k = translate k.
Proof.
  unfold toAnsiSeq, translate.
  generalize (ctrl_held k) (alt_held k) (unicodeChar k) (virtualKeyCode k).
  intros c a uc code Hin. unfold mapped_codes in Hin. simpl in Hin.
  repeat (destruct Hin as [<-|Hin]; [destruct c, a; vm_compute; reflexivity|]).
  contradiction.
Qed.

Lemma toAnsiSeq_unmapped ar k :
  Forall (fun n => virtualKeyCode k <> n) mapped_codes ->
  toAnsiSeq ar k = translate k.
Proof.
  unfold toAnsiSeq, translate, key_of_code, case_of, existsb, mapped_codes.
  generalize (ctrl_held k) (alt_held k) (unicodeChar k) (virtualKeyCode k).
  intros c a uc code Hall.
  repeat match goal with
  | H : Forall _ (_ :: _) |- _ => apply Forall_cons in H; destruct H as [? H]
  end.
  repeat match goal with
  | |- context [code =? ?n] =>
      destruct (Z.eqb_spec code n) as [E|_];
      [exfalso; vm_compute in E; congruence|]
  end.
  cbn [orb].
  destruct (_ && _ && _ && _) eqn:E; [|reflexivity].
  do 2 f_equal. apply fmt_c_ascii.
  apply andb_prop in E as [E _]. apply andb_prop in E as [E _].
  apply andb_prop in E as [E1 E2]. lia.
Qed.

(** C1. For every key event, [toAnsiSeq] gives what the mapping table of the
    input translator gives: the arrow, Home and End rows with and without
    Ctrl, Backspace, Pause, Escape, Insert, Delete, PageUp, PageDown, F1 to
    F12, Alt with a printable ASCII character, and nothing for any other
    event; in particular Ctrl+Right-Arrow gives ESC [ 1 ; 5 C. *)
Theorem toAnsiSeq_table :
  (forall ar k, toAnsiSeq ar k = translate k)
  /\ toAnsiSeq (NewAnsiReader Stdin) ctrl_right_arrow
     = Some [0x1b; 91; 49; 59; 53; 67].
Proof.
  split.
  - intros ar k. destruct (mapped_or_not (virtualKeyCode k)).
    + now apply toAnsiSeq_mapped.
    + now apply toAnsiSeq_unmapped.
  - vm_compute. reflexivity.
Qed.

(** [toAnsiSeq] does not look at its receiver. *)
Lemma toAnsiSeq_receiver ar ar' k : toAnsiSeq ar k = toAnsiSeq ar' k.
Proof. reflexivity. Qed.

(** C2. The translation of a key-down event does not depend on the reader
    it is called on; a record of a key event that is not a key-down leaves
    the bytes and the reader as they are; a key-down event with a mapping
    appends its sequence whatever was read before; and for any key-down
    event the bytes depend on the earlier calls only through the pending
    surrogate half. *)
Theorem key_translation_pure (ar ar' : ansiReader) (b : list Z)
  (k : keyEventRecord) :
  let record := {| eventType := keyEvent; event := k |} in
  toAnsiSeq ar k = toAnsiSeq ar' k
  /\ (keyDown k <> 1 -> readRecord (ar, b) record = (ar, b))
  /\ (keyDown k = 1 -> forall seq, toAnsiSeq ar k = Some seq ->
      readRecord (ar, b) record = (ar, b ++ seq)
      /\ readRecord (ar', b) record = (ar', b ++ seq))
  /\ (lastRune ar = lastRune ar' ->
      snd (readRecord (ar, b) record) = snd (readRecord (ar', b) record)).
Proof.
  cbn zeta. split; [reflexivity|]. split; [|split].
  - intros Hup. unfold readRecord. cbn [eventType event].
    change (keyEvent =? keyEvent) with true. cbn iota.
    destruct (Z.eqb_spec (keyDown k) 1); [contradiction|reflexivity].
  - intros Hdown seq Hseq. unfold readRecord. cbn [eventType event].
    change (keyEvent =? keyEvent) with true. cbn iota.
    rewrite Hdown. change (negb (1 =? 1)) with false. cbn iota.
    rewrite (toAnsiSeq_receiver ar' ar), Hseq. split; reflexivity.
  - intros Hlast. unfold readRecord. cbn [eventType event].
    change (keyEvent =? keyEvent) with true. cbn iota.
    destruct (negb (keyDown k =? 1)); [reflexivity|].
    rewrite (toAnsiSeq_receiver ar' ar).
    destruct (toAnsiSeq ar k); [reflexivity|].
    rewrite <- Hlast.
    repeat match goal with
    | |- context [if ?c then _ else _] => destruct c
    end; reflexivity.
Qed.

Lemma key_translation_pure_witness :
  let ar := NewAnsiReader Stdin in
  let ar' := {| file := Stdin; lastRune := 0xD83D |} in
  let up := {| keyDown := 0; repeatCount := 1; virtualKeyCode := 0x27;
               virtualScanCode := 0x4D; unicodeChar := 0;
               controlKeyState := 0 |} in
  readRecord (ar, [1]) {| eventType := keyEvent; event := up |} = (ar, [1])
  /\ readRecord (ar', [1])
       {| eventType := keyEvent; event := ctrl_right_arrow |}
     = (ar', [1; 0x1b; 91; 49; 59; 53; 67]).
Proof.
  cbn zeta. split.
  - apply (key_translation_pure (NewAnsiReader Stdin) (NewAnsiReader Stdin)).
    cbn. lia.
  - apply (key_translation_pure (NewAnsiReader Stdin)
             {| file := Stdin; lastRune := 0xD83D |} [1] ctrl_right_arrow).
    + reflexivity.
    + vm_compute. reflexivity.
Defined.

(** ** Surrogate pairs *)

(** Within one reader, the first half of a pair that arrives with nothing
    pending is kept and emits nothing, and the second half then emits the
    UTF-8 encoding of the combined character. *)
Lemma readRecord_surrogate_pair ar b hi lo :
  lastRune ar = 0 ->
  0xD800 <= hi < 0xDC00 -> 0xDC00 <= lo < 0xE000 ->
  readRecord (ar, b) (typed hi) = (set_lastRune ar hi, b)
  /\ readRecord (set_lastRune ar hi, b) (typed lo)
     = (set_lastRune ar 0,
        b ++ utf8.EncodeRune (utf16.DecodeRune hi lo)).
Proof.
  intros H0 Hhi Hlo.
  assert (Hnone : forall ar c, 0xD800 <= c < 0xE000 ->
             toAnsiSeq ar (event (typed c)) = None).
  { intros ar0 c Hc. unfold toAnsiSeq, typed. cbn [event virtualKeyCode unicodeChar].
    change (case_of 0 _) with false. cbn iota.
    destruct (Z.leb_spec c 0x7E); [lia|]. now rewrite andb_false_r. }
  split.
  - unfold readRecord. cbn [eventType typed].
    change (keyEvent =? keyEvent) with true. cbn iota.
    change (negb (keyDown _ =? 1)) with false. cbn iota.
    change (toAnsiSeq ar _) with (toAnsiSeq ar (event (typed hi))).
    rewrite Hnone by lia. rewrite H0. cbn [negb Z.eqb]. cbn iota.
    change (unicodeChar (event (typed hi))) with hi.
    unfold utf16.IsSurrogate, utf16.surr1, utf16.surr3.
    destruct (Z.leb_spec 0xd800 hi); [|lia].
    destruct (Z.ltb_spec hi 0xe000); [|lia]. reflexivity.
  - unfold readRecord. cbn [eventType typed].
    change (keyEvent =? keyEvent) with true. cbn iota.
    change (negb (keyDown _ =? 1)) with false. cbn iota.
    change (toAnsiSeq _ _) with
      (toAnsiSeq (set_lastRune ar hi) (event (typed lo))).
    rewrite Hnone by lia. cbn [lastRune set_lastRune].
    change (unicodeChar (event (typed lo))) with lo.
    destruct (Z.eqb_spec hi 0); [lia|]. cbn [negb]. cbn iota.
    assert (Hd : utf16.DecodeRune hi lo <> 0).
    { unfold utf16.DecodeRune, utf16.surr1, utf16.surr2, utf16.surr3,
        utf16.surrSelf.
      destruct (Z.leb_spec 0xd800 hi); [|lia].
      destruct (Z.ltb_spec hi 0xdc00); [|lia].
      destruct (Z.leb_spec 0xdc00 lo); [|lia].
      destruct (Z.ltb_spec lo 0xe000); [|lia]. cbn [andb].
      assert (0 <= Z.lor (Z.shiftl (hi - 55296) 10) (lo - 56320)).
      { apply Z.lor_nonneg. split; [apply Z.shiftl_nonneg|]; lia. }
      lia. }
    destruct (Z.eqb_spec (utf16.DecodeRune hi lo) 0); [contradiction|].
    reflexivity.
Qed.

(** C3. With input emulation on, the first half of a pair alone in one
    [readFromStdin] call emits nothing, and the second half in the next call
    emits nothing either: the reader that kept the first half is gone.  The
    same two records in one call emit the four bytes of U+1F600. *)
Theorem surrogate_pair_lost_between_reads :
  let sys := windows.set_emuStdin windows.new_sysInfo true in
  let holds records :=
    {| as_records := Records records;
       as_bytes := ([], None) |} in
  windows.readFromStdin sys (holds [typed 0xD83D]) = ([], None)
  /\ windows.readFromStdin sys (holds [typed 0xDE00]) = ([], None)
  /\ windows.readFromStdin sys (holds [typed 0xD83D; typed 0xDE00])
     = ([0xF0; 0x9F; 0x98; 0x80], None).
Proof. cbn zeta. repeat split; vm_compute; reflexivity. Qed.

(** ** The local-input pump *)

Section StdinPump.

Context (P : Platform) (s : sysInfo P).

Lemma count_app p acts acts' :
  count p (acts ++ acts') = (count p acts + count p acts')%nat.
Proof.
  induction acts as [|a acts IH]; cbn [count app]; [reflexivity|].
  rewrite IH. lia.
Qed.

(** On every path the pump closes the remote stdin at most once. *)
Lemma stdinPump_closes_at_most_once answers :
  (count is_close (fst (stdinPump P s answers)) <= 1)%nat.
Proof.
  induction answers as [|a answers IH]; cbn [stdinPump]; [cbn; lia|].
  destruct (readFromStdin P s (stdin_holds a)) as [buf [e|]].
  - cbn [fst]. rewrite count_app. destruct e; cbn; lia.
  - destruct (0 <? Z.of_nat (length buf)); [|exact IH].
    destruct (write_err a); [cbn; lia|].
    destruct (stdinPump P s answers) as [acts st]. exact IH.
Qed.

(** C4. When the reads and writes of the earlier turns succeed and the read
    of turn [a] reports end of stream or an error, the pump returns, its
    last action is the one close of the remote stdin, and what standard
    input holds afterwards changes nothing: the pump does not run again.
    Whatever the answers, the close happens at most once. *)
Theorem stdinPump_closes_once (pre post : list stdinAnswer)
  (a : stdinAnswer) :
  forallb (turn_passes P s) pre = true ->
  read_ends P s a = true ->
  (exists acts,
      stdinPump P s (pre ++ a :: post) = (acts ++ [RStdinClose], Returned)
      /\ count is_close acts = 0%nat
      /\ stdinPump P s (pre ++ [a]) = (acts ++ [RStdinClose], Returned))
  /\ (forall answers,
        (count is_close (fst (stdinPump P s answers)) <= 1)%nat).
Proof.
  intros Hpre Ha. split; [|apply stdinPump_closes_at_most_once].
  induction pre as [|t pre IH].
  - cbn [app stdinPump]. unfold read_ends in Ha.
    destruct (readFromStdin P s (stdin_holds a)) as [buf [e|]];
      [|discriminate].
    exists (match e with
            | EOF => []
            | _ => [LogPrintf "failed to read bytes from local stdin: %s\n"
                      [AErr e]]
            end).
    repeat split; destruct e; reflexivity.
  - cbn [forallb] in Hpre. apply andb_prop in Hpre as [Ht Hpre].
    destruct (IH Hpre) as (acts & E1 & Hc & E2).
    unfold turn_passes, read_ends in Ht.
    cbn [app stdinPump]. rewrite E1, E2.
    destruct (readFromStdin P s (stdin_holds t)) as [buf [e|]];
      [discriminate|].
    cbn [snd fst is_err negb andb] in Ht.
    destruct buf as [|c buf].
    + exists acts. cbn. auto.
    + cbn [length Nat.eqb orb] in Ht.
      destruct (write_err t); [discriminate|].
      change (0 <? Z.of_nat (length (c :: buf))) with true. cbn iota.
      exists (RStdinWrite (c :: buf) :: acts). cbn [app count is_close].
      auto.
Qed.

End StdinPump.

Lemma stdinPump_closes_once_witness :
  let eof := {| stdin_holds :=
                  {| as_records := Records [];
                     as_bytes := ([], Some EOF) |};
                write_err := None |} in
  let ls := {| stdin_holds :=
                 {| as_records := Records [];
                    as_bytes := ([108; 115; 10], None) |};
               write_err := None |} in
  (exists acts,
      stdinPump on_unix unix.new_sysInfo ([ls] ++ eof :: [ls])
      = (acts ++ [RStdinClose], Returned)
      /\ count is_close acts = 0%nat
      /\ stdinPump on_unix unix.new_sysInfo ([ls] ++ [eof])
         = (acts ++ [RStdinClose], Returned))
  /\ (forall answers,
        (count is_close (fst (stdinPump on_unix unix.new_sysInfo answers))
         <= 1)%nat).
Proof.
  cbn zeta. apply stdinPump_closes_once; reflexivity.
Defined.

(** ** The resize pump *)

Lemma resizeLoop_notified wh size send_err wakes :
  resizeLoop wh (Notified size send_err :: wakes)
  = (let '(wh', acts) := resizeTurn wh size send_err in
     let '(acts', st) := resizeLoop wh' wakes in
     (acts ++ acts', st)).
Proof. reflexivity. Qed.

(** C5. After a notification the pump queries the size again.  With the
    size it last reported it sends nothing and keeps its values.  With
    another size it sends one "window-change" request whose payload is the
    width, the height and two zero pixel fields; it takes the new values
    when the send succeeds and keeps the old ones when it fails, so that the
    next notification sends the request again; and after a failed send the
    loop goes on as before. *)
Theorem resize_pump_sends_on_change (w h newW newH : Z) (e : error)
  (send_err : option error) (wakes : list wake) :
  let payload :=
    Marshal {| W := uint32 newW; H := uint32 newH; Wpx := 0; Hpx := 0 |} in
  let req := SendRequest "window-change" false payload in
  let failed :=
    LogPrintf "failed to set new window size: %s\n" [AErr e] in
  resizeTurn (w, h) (w, h, None) send_err = ((w, h), [GetWindowSize])
  /\ payload
     = be32 (uint32 newW) ++ be32 (uint32 newH) ++ [0; 0; 0; 0; 0; 0; 0; 0]
  /\ ((newW, newH) <> (w, h) ->
      resizeTurn (w, h) (newW, newH, None) None
      = ((newW, newH), [GetWindowSize; req])
      /\ resizeTurn (w, h) (newW, newH, None) (Some e)
         = ((w, h), [GetWindowSize; req; failed])
      /\ count is_request
           (snd (resizeTurn (w, h) (newW, newH, None) send_err)) = 1%nat
      /\ resizeLoop (w, h)
           [Notified (newW, newH, None) (Some e);
            Notified (newW, newH, None) None;
            Notified (newW, newH, None) None]
         = ([GetWindowSize; req; failed; GetWindowSize; req; GetWindowSize],
            Blocked)
      /\ resizeLoop (w, h) (Notified (newW, newH, None) (Some e) :: wakes)
         = (let '(acts, st) := resizeLoop (w, h) wakes in
            ([GetWindowSize; req; failed] ++ acts, st))).
Proof.
  cbn zeta.
  assert (Hsame : forall a b, (a =? a) && (b =? b) = true).
  { intros. now rewrite !Z.eqb_refl. }
  split; [|split].
  - unfold resizeTurn. now rewrite Hsame.
  - reflexivity.
  - intros Hne.
    assert (Hdiff : (newW =? w) && (newH =? h) = false).
    { destruct (Z.eqb_spec newW w) as [->|]; [|reflexivity].
      destruct (Z.eqb_spec newH h) as [->|]; [|reflexivity].
      congruence. }
    assert (Hok : resizeTurn (w, h) (newW, newH, None) None
                  = ((newW, newH),
                     [GetWindowSize;
                      SendRequest "window-change" false
                        (Marshal {| W := uint32 newW; H := uint32 newH;
                                    Wpx := 0; Hpx := 0 |})])).
    { unfold resizeTurn. now rewrite Hdiff. }
    assert (Hfail : resizeTurn (w, h) (newW, newH, None) (Some e)
                  = ((w, h),
                     [GetWindowSize;
                      SendRequest "window-change" false
                        (Marshal {| W := uint32 newW; H := uint32 newH;
                                    Wpx := 0; Hpx := 0 |});
                      LogPrintf "failed to set new window size: %s\n"
                        [AErr e]])).
    { unfold resizeTurn. now rewrite Hdiff. }
    split; [exact Hok|]. split; [exact Hfail|]. split; [|split].
    + unfold resizeTurn. rewrite Hdiff. destruct send_err; reflexivity.
    + rewrite resizeLoop_notified, Hfail, resizeLoop_notified, Hok.
      rewrite resizeLoop_notified. unfold resizeTurn.
      rewrite Hsame. reflexivity.
    + rewrite resizeLoop_notified, Hfail.
      destruct (resizeLoop (w, h) wakes). reflexivity.
Qed.

Lemma resize_pump_sends_on_change_witness :
  resizeTurn (80, 24) (100, 30, None) None
  = ((100, 30),
     [GetWindowSize;
      SendRequest "window-change" false
        [0; 0; 0; 100; 0; 0; 0; 30; 0; 0; 0; 0; 0; 0; 0; 0]]).
Proof.
  apply (resize_pump_sends_on_change 80 24 100 30 EOF None []).
  intros [=].
Defined.

(** ** Traces *)

Lemma emits_ret {A} (a : A) ok : emits (ret a) ok.
Proof. intros w. exists []. cbn. now rewrite app_nil_r. Qed.

Lemma emits_ask {A} (f : World -> A) ok : emits (ask f) ok.
Proof. intros w. exists []. cbn. now rewrite app_nil_r. Qed.

Lemma emits_put_console c ok : emits (put_console c) ok.
Proof. intros w. exists []. cbn. now rewrite app_nil_r. Qed.

Lemma emits_put_tty t ok : emits (put_tty t) ok.
Proof. intros w. exists []. cbn. now rewrite app_nil_r. Qed.

Lemma emits_emit a (ok : action -> bool) : ok a = true -> emits (emit a) ok.
Proof. intros Ha w. exists [a]. cbn. now rewrite Ha. Qed.

Lemma emits_bind {A B} (m : M A) (k : A -> M B) ok :
  emits m ok -> (forall a, emits (k a) ok) -> emits (bind m k) ok.
Proof.
  intros Hm Hk w. unfold bind.
  destruct (Hm w) as (acts & Et & Hok).
  destruct (m w) as [a w1]. cbn [snd] in Et.
  destruct (Hk a w1) as (acts' & Et' & Hok').
  exists (acts ++ acts'). rewrite Et', Et, app_assoc. split; [reflexivity|].
  rewrite forallb_app, Hok, Hok'. reflexivity.
Qed.

Lemma emits_when c m ok : emits m ok -> emits (when c m) ok.
Proof. intros Hm. destruct c; [exact Hm|apply emits_ret]. Qed.

(** Splits a goal [emits m ok] along the structure of [m]. *)
Ltac emits_step :=
  match goal with
  | |- emits (bind _ _) _ => apply emits_bind; [|intros ?]
  | |- emits (ret _) _ => apply emits_ret
  | |- emits (ask _) _ => apply emits_ask
  | |- emits (put_console _) _ => apply emits_put_console
  | |- emits (put_tty _) _ => apply emits_put_tty
  | |- emits (emit _) _ => apply emits_emit; reflexivity
  | |- emits (when _ _) _ => apply emits_when
  | |- emits (match ?x with _ => _ end) _ => destruct x
  | |- emits (if ?x then _ else _) _ => destruct x
  end.

Ltac emits_all := repeat emits_step.

Lemma emits_weaken {A} (m : M A) (ok ok' : action -> bool) :
  (forall a, ok a = true -> ok' a = true) -> emits m ok -> emits m ok'.
Proof.
  intros Himp Hm w. destruct (Hm w) as (acts & Et & Hok).
  exists acts. split; [exact Et|].
  rewrite forallb_forall in *. auto.
Qed.











Lemma added_app w w' acts : trace w' = trace w ++ acts -> added w w' = acts.
Proof. intros E. unfold added. rewrite E. apply drop_app_length. Qed.

Lemma count_none (p ok : action -> bool) acts :
  (forall a, ok a = true -> p a = false) ->
  forallb ok acts = true -> count p acts = 0%nat.
Proof.
  intros Himp. induction acts as [|a acts IH]; cbn [forallb count];
    [reflexivity|].
  intros H. apply andb_prop in H as [Ha Hacts].
  rewrite (Himp a Ha), (IH Hacts). reflexivity.
Qed.












(** ** The session runner *)





(** ** The exit message *)

(** C8. After the common beginning, the message ends in "successfully" when
    the wait returned no error, in the missing-exit-status text when it
    returned an [ExitMissingError], and in the error itself otherwise: after
    "with error" for an [ExitError] and after "with unknown error" for any
    other error. *)
Theorem printExitMessage_outcomes (P : Platform) (ms : MinSSH P)
  (w : World) :
  let says err := added w (snd (printExitMessage P ms err w)) in
  let closed :=
    Printf "ssh connection to %s closed " [AStr (Host (conf P ms))] in
  says None = [closed; Println [AStr "successfully"]]
  /\ says (Some ExitMissingError)
     = [closed;
        Printf "but remote didn't send exit status: %s\n"
          [AErr ExitMissingError]]
  /\ (forall status,
        says (Some (ExitError status))
        = [closed; Printf "with error: %s\n" [AErr (ExitError status)]])
  /\ (forall e,
        match e with
        | ExitMissingError | ExitError _ => True
        | _ =>
            says (Some e)
            = [closed; Printf "with unknown error: %s\n" [AErr e]]
        end).
Proof.
  cbn zeta.
  assert (Hsays : forall a b,
    added w
      {| console := console w; tty := tty w; remote := remote w;
         env_TERM := env_TERM w; trace := (trace w ++ [a]) ++ [b] |}
    = [a; b]).
  { intros a b. apply added_app. cbn [trace]. now rewrite <- app_assoc. }
  repeat split; try intros []; try exact I; apply Hsays.
Qed.

(** ** The terminal-mode controller *)

Lemma restore_all_zero sys w :
  windows.stdinMode sys = 0 -> windows.stdoutMode sys = 0 ->
  windows.stderrMode sys = 0 ->
  windows.restoreLocalTerminalMode sys w = (None, w).
Proof.
  intros E1 E2 E3. unfold windows.restoreLocalTerminalMode.
  rewrite E1, E2, E3. reflexivity.
Qed.

(** With no mode saved for [f], restoring sets no mode on [f]. *)
Lemma restore_skips_unsaved sys f :
  saved_mode sys f = 0 ->
  emits (windows.restoreLocalTerminalMode sys)
    (fun a => negb (is_set_mode_of f a)).
Proof.
  intros Hf. unfold windows.restoreLocalTerminalMode, windows.setConsoleMode.
  destruct f; cbn [saved_mode] in Hf; rewrite Hf;
    change (0 <? 0) with false; cbn iota; emits_all.
Qed.

(** C10. On POSIX, with no saved state, restoring does nothing and returns
    no error.  On Windows, a stream whose saved mode word is zero gets no
    set-mode call, and with the three words zero restoring does nothing and
    returns no error.  So [Close] on a session as [Open] returns it only
    closes the session and the connection: the world is otherwise as it
    was, and nothing is logged. *)
Theorem restore_without_snapshot (sys : windows.sysInfo) (c : Config)
  (w : World) :
  let closed :=
    {| console := console w; tty := tty w; remote := remote w;
       env_TERM := env_TERM w;
       trace := trace w ++ [SessClose; ConnClose] |} in
  let set_modes_on f s :=
    count (is_set_mode_of f)
      (added w (snd (windows.restoreLocalTerminalMode s w))) in
  unix.restoreLocalTerminalMode {| unix.origMode := None |} w = (None, w)
  /\ set_modes_on Stdin (windows.set_stdinMode sys 0) = 0%nat
  /\ set_modes_on Stdout (windows.set_stdoutMode sys 0) = 0%nat
  /\ set_modes_on Stderr (windows.set_stderrMode sys 0) = 0%nat
  /\ windows.restoreLocalTerminalMode
       (windows.set_stdinMode
          (windows.set_stdoutMode (windows.set_stderrMode sys 0) 0) 0) w
     = (None, w)
  /\ Close on_unix (opened on_unix c) w = (tt, closed)
  /\ Close on_windows (opened on_windows c) w = (tt, closed).
Proof.
  cbn zeta.
  assert (Hskip : forall f s, saved_mode s f = 0 ->
    count (is_set_mode_of f)
      (added w (snd (windows.restoreLocalTerminalMode s w))) = 0%nat).
  { intros f s Hf.
    destruct (restore_skips_unsaved s f Hf w) as (acts & Et & Hok).
    rewrite (added_app _ _ _ Et).
    eapply count_none; [|exact Hok].
    intros a. cbn beta. destruct (is_set_mode_of f a); cbn; congruence. }
  split; [reflexivity|].
  split; [now apply Hskip|]. split; [now apply Hskip|].
  split; [now apply Hskip|]. split; [now apply restore_all_zero|].
  split.
  - unfold Close, bind. cbn. unfold emit. cbn. now rewrite <- app_assoc.
  - unfold Close, bind. cbn. unfold emit. cbn. now rewrite <- app_assoc.
Qed.

(** C9. Starting with both fallback flags off, when the three modes can be
    read and the call succeeds: the first mode requested for standard input
    has the virtual-terminal input bit and the first one requested for
    standard output the virtual-terminal processing bit; the input flag is
    set exactly when the console refused that first input mode, and the
    output flag exactly when it refused both virtual-terminal output modes;
    each flag depends on the answers for its own stream only.  A console
    that refuses only virtual-terminal input ends with the input flag alone,
    one that refuses only virtual-terminal processing with the output flag
    alone. *)
Theorem fallback_flags (sys : windows.sysInfo) (w : World) (mi mo me : Z) :
  con_mode (console w) Stdin = inl mi ->
  con_mode (console w) Stdout = inl mo ->
  con_mode (console w) Stderr = inl me ->
  windows.emuStdin sys = false ->
  windows.emuStdout sys = false ->
  let refuses f mode := is_err (con_refuses (console w) f mode) in
  let vt_in :=
    Z.lor
      (Z.ldiff mi
         (Z.lor (Z.lor windows.enableEchoInput windows.enableProcessedInput)
            windows.enableLineInput))
      windows.enableVirtualTerminalInput in
  let vt_out' := Z.lor mo windows.enableVirtualTerminalProcessing in
  let vt_out := Z.lor vt_out' windows.disableNewlineAutoReturn in
  let r := windows.changeLocalTerminalMode sys w in
  let flags (r : windows.sysInfo * option error * World) :=
    (windows.emuStdin (fst (fst r)), windows.emuStdout (fst (fst r))) in
  snd (fst r) = None ->
  first_set_mode Stdin (added w (snd r)) = Some vt_in
  /\ first_set_mode Stdout (added w (snd r)) = Some vt_out
  /\ flags r
     = (refuses Stdin vt_in, refuses Stdout vt_out && refuses Stdout vt_out')
  /\ flags (windows.changeLocalTerminalMode windows.new_sysInfo
              (world_of (console_refusing Stdin 0x200) plain_tty))
     = (true, false)
  /\ flags (windows.changeLocalTerminalMode windows.new_sysInfo
              (world_of (console_refusing Stdout 0x4) plain_tty))
     = (false, true).
Proof.
  intros Hi Ho He Hfi Hfo. cbn zeta.
  unfold windows.changeLocalTerminalMode at 1 2 3 4.
  unfold windows.getConsoleMode, windows.setConsoleMode, bind, emit, ask, ret,
    put_console.
  repeat first
    [ rewrite Hi | rewrite Ho | rewrite He | rewrite Hfi | rewrite Hfo
    | progress cbn [console tty remote env_TERM trace fst snd
        windows.with_mode con_refuses con_mode windows.stdinMode
        windows.stdoutMode windows.stderrMode windows.emuStdin
        windows.emuStdout windows.set_stdinMode windows.set_stdoutMode
        windows.set_stderrMode windows.set_emuStdin windows.set_emuStdout
        is_err andb]
    | match goal with
      | |- context [match con_refuses ?c ?f ?m with _ => _ end] =>
          destruct (con_refuses c f m)
      end ].
  all: try discriminate.
  all: intros _; unfold added; cbn [trace];
    rewrite <- ?app_assoc; rewrite drop_app_length.
  all: repeat split; try reflexivity.
Qed.

Lemma fallback_flags_witness :
  let w := world_of (console_refusing Stdin 0x200) plain_tty in
  let r := windows.changeLocalTerminalMode windows.new_sysInfo w in
  first_set_mode Stdin (added w (snd r)) = Some 0x200
  /\ (windows.emuStdin (fst (fst r)), windows.emuStdout (fst (fst r)))
     = (true, false).
Proof.
  cbn zeta.
  assert (Hok : snd (fst (windows.changeLocalTerminalMode windows.new_sysInfo
                 (world_of (console_refusing Stdin 0x200) plain_tty)))
                = None) by (vm_compute; reflexivity).
  destruct (fallback_flags windows.new_sysInfo
              (world_of (console_refusing Stdin 0x200) plain_tty) 7 7 7
              eq_refl eq_refl eq_refl eq_refl eq_refl Hok)
    as (H1 & _ & H3 & _).
  split; [exact H1|exact H3].
Defined.

(** ** The resize watcher *)

Module watcher_facts.
Import watcher.

(** From its [select], a cancelled watcher can return, and doing so closes
    the channel once; a returned watcher takes no further step. *)
Lemma returns_from_select st :
  at_w st = WSelect -> ctx_done st = true ->
  exists st', step WatcherDone st = Some st'
    /\ at_w st' = WReturned /\ ch_closes st' = S (ch_closes st)
    /\ step WatcherDone st' = None /\ step WatcherSource st' = None
    /\ step WatcherSend st' = None.
Proof.
  intros Hw Hc. unfold step at 1. rewrite Hw, Hc.
  eexists. split; [reflexivity|]. now cbn.
Qed.

Lemma abandoned_step m st st' :
  abandoned st -> step m st = Some st' ->
  abandoned st' /\ ch_closes st' = ch_closes st.
Proof.
  intros (Hw & Hr & Hl) Hstep. unfold abandoned.
  destruct m; cbn [step] in Hstep; rewrite ?Hw, ?Hr, ?Hl in Hstep;
    cbn in Hstep; try discriminate;
    injection Hstep as <-; cbn; auto.
Qed.

Lemma abandoned_stuck st : abandoned st -> watcher_stuck st.
Proof.
  intros (Hw & Hr & Hl). unfold watcher_stuck, step.
  rewrite Hw, Hl. now cbn.
Qed.

Lemma abandoned_never_returns st : abandoned st -> never_returns st.
Proof.
  intros Hst moves. revert st Hst.
  induction moves as [|m moves IH]; intros st Hst st' Hrun; cbn [run] in Hrun.
  - injection Hrun as <-. destruct Hst as (Hw & Hr & Hl).
    split; [exact Hw|]. split; [reflexivity|].
    now apply abandoned_stuck.
  - destruct (step m st) as [st1|] eqn:Hstep; [|discriminate].
    destruct (abandoned_step m st st1 Hst Hstep) as [Hst1 Hc].
    rewrite <- Hc. now apply IH.
Qed.

End watcher_facts.

(** C7. There is a schedule after which the context is cancelled while the
    watcher waits at [ch <- struct{}{}] with the channel full and its reader
    gone; from there on, whatever happens, the watcher has no enabled step,
    does not return and does not close the channel. *)
Theorem watcher_ignores_cancel_in_send :
  exists st,
    watcher.run stuck_schedule watcher.init = Some st
    /\ watcher.ctx_done st = true
    /\ watcher.at_w st = watcher.WSend
    /\ watcher.ch_closes st = 0%nat
    /\ watcher.never_returns st.
Proof.
  exists {| watcher.at_w := watcher.WSend; watcher.at_r := watcher.RReturned;
            watcher.ch_len := 1; watcher.ch_closes := 0;
            watcher.source_ready := false; watcher.ctx_done := true |}.
  split; [vm_compute; reflexivity|].
  do 3 (split; [reflexivity|]).
  apply watcher_facts.abandoned_never_returns. repeat split.
Qed.

(** * Further properties *)

(** ** The key reader *)

Lemma EncodeRune_length r :
  (1 <= length (utf8.EncodeRune r) <= 4)%nat.
Proof.
  unfold utf8.EncodeRune, utf8.enc3.
  repeat match goal with
  | |- context [if ?c then _ else _] => destruct c
  end; cbn [length]; lia.
Qed.

Lemma translate_length k seq :
  translate k = Some seq -> (1 <= length seq <= 6)%nat.
Proof.
  unfold translate, csi.
  destruct (key_of_code (virtualKeyCode k));
    repeat match goal with
    | |- context [if ?c then _ else _] => destruct c
    end;
    intros [= <-]; cbn; lia.
Qed.

Lemma toAnsiSeq_length ar k seq :
  toAnsiSeq ar k = Some seq -> (1 <= length seq <= 6)%nat.
Proof.
  intros H. apply (translate_length k).
  destruct (mapped_or_not (virtualKeyCode k)).
  - now rewrite <- (toAnsiSeq_mapped ar).
  - now rewrite <- (toAnsiSeq_unmapped ar).
Qed.

Lemma readRecord_length ar b record :
  (length (snd (readRecord (ar, b) record)) <= length b + 6)%nat.
Proof.
  unfold readRecord.
  destruct (eventType record =? keyEvent); [|cbn; lia].
  destruct (negb (keyDown (event record) =? 1)); [cbn; lia|].
  destruct (toAnsiSeq ar (event record)) as [seq|] eqn:E.
  - apply toAnsiSeq_length in E. cbn [snd]. rewrite length_app. lia.
  - repeat match goal with
    | |- context [if ?c then _ else _] => destruct c
    end; cbn [snd]; rewrite ?length_app;
    try match goal with
    | |- context [utf8.EncodeRune ?r] =>
        pose proof (EncodeRune_length r)
    end; lia.
Qed.

Lemma fold_readRecord_length records ar b :
  (length (snd (fold_left readRecord records (ar, b)))
   <= length b + 6 * length records)%nat.
Proof.
  revert ar b. induction records as [|record records IH]; intros ar b.
  - cbn. lia.
  - cbn [fold_left length].
    pose proof (readRecord_length ar b record) as H1.
    destruct (readRecord (ar, b) record) as [ar1 b1]. cbn [snd] in H1.
    specialize (IH ar1 b1). lia.
Qed.

(** X1. One call of [Read] leaves at most six bytes per record in the
    buffer. *)
Theorem Read_length_bound (ar : ansiReader) (records : list inputRecord) :
  (length (fst (snd (Read ar (Records records)))) <= 6 * length records)%nat.
Proof.
  unfold Read. destruct records as [|record records]; [cbn; lia|].
  pose proof (fold_readRecord_length (record :: records) ar []) as H.
  destruct (fold_left readRecord (record :: records) (ar, [])) as [ar1 b1].
  cbn [fst snd length] in *. lia.
Qed.

(** X2. When a half is pending and the next key-down event has no mapping
    and does not complete a pair with it, the reader emits the three bytes
    of U+FFFD and forgets the pending half; the character of the event, if
    it carried one, is not emitted. *)
Theorem pending_half_replaced (ar : ansiReader) (b : list Z)
  (k : keyEventRecord) :
  keyDown k = 1 ->
  toAnsiSeq ar k = None ->
  lastRune ar <> 0 ->
  is_pair (lastRune ar) (unicodeChar k) = false ->
  readRecord (ar, b) {| eventType := keyEvent; event := k |}
  = (set_lastRune ar 0, b ++ [0xEF; 0xBF; 0xBD]).
Proof.
  intros Hdown Hnone Hpending Hpair. unfold readRecord.
  cbn [eventType event]. change (keyEvent =? keyEvent) with true. cbn iota.
  rewrite Hdown. change (negb (1 =? 1)) with false. cbn iota.
  rewrite Hnone.
  destruct (Z.eqb_spec (lastRune ar) 0); [contradiction|]. cbn [negb].
  cbn iota.
  assert (E : utf16.DecodeRune (lastRune ar) (unicodeChar k) = 0xFFFD).
  { unfold utf16.DecodeRune. unfold is_pair in Hpair.
    change utf16.surr1 with 0xD800. change utf16.surr2 with 0xDC00.
    change utf16.surr3 with 0xE000. now rewrite Hpair. }
  rewrite E. reflexivity.
Qed.

Lemma pending_half_replaced_witness :
  readRecord ({| file := Stdin; lastRune := 0xD83D |}, [])
    {| eventType := keyEvent; event := event (typed 97) |}
  = ({| file := Stdin; lastRune := 0 |}, [0xEF; 0xBF; 0xBD]).
Proof.
  apply (pending_half_replaced {| file := Stdin; lastRune := 0xD83D |} []
           (event (typed 97))); [reflexivity|reflexivity|cbn; lia|reflexivity].
Defined.

Lemma readRecord_skips ar b record :
  is_key_down record = false -> readRecord (ar, b) record = (ar, b).
Proof.
  unfold is_key_down, readRecord. intros H.
  destruct (eventType record =? keyEvent); [|reflexivity].
  cbn [andb] in H. now rewrite H.
Qed.

(** X3. A call of [Read] that gets records, none of them a key-down event
    (key-up, mouse, focus, menu and buffer-size events), returns no byte,
    no error, and leaves the reader as it was. *)
Theorem Read_without_key_down (ar : ansiReader)
  (records : list inputRecord) :
  records <> [] ->
  forallb (fun r => negb (is_key_down r)) records = true ->
  Read ar (Records records) = (ar, ([], None)).
Proof.
  intros Hne Hall.
  assert (Hfold : fold_left readRecord records (ar, []) = (ar, [])).
  { generalize (@nil Z) as b. clear Hne.
    induction records as [|r records IH]; intros b; [reflexivity|].
    cbn [forallb] in Hall. apply andb_prop in Hall as [Hr Hall].
    cbn [fold_left]. rewrite readRecord_skips.
    - now apply IH.
    - now destruct (is_key_down r). }
  unfold Read. destruct records as [|r records]; [contradiction|].
  now rewrite Hfold.
Qed.

Lemma Read_without_key_down_witness :
  Read (NewAnsiReader Stdin)
    (Records [{| eventType := mouseEvent; event := event (typed 97) |};
              {| eventType := keyEvent;
                 event := {| keyDown := 0; repeatCount := 1;
                             virtualKeyCode := 65; virtualScanCode := 30;
                             unicodeChar := 97; controlKeyState := 0 |} |}])
  = (NewAnsiReader Stdin, ([], None)).
Proof.
  apply Read_without_key_down; [discriminate|reflexivity].
Defined.

Lemma readRecord_typed_ascii ar b c :
  lastRune ar = 0 -> 1 <= c <= 0x7F ->
  readRecord (ar, b) (typed c) = (ar, b ++ [c]).
Proof.
  intros H0 Hc. unfold readRecord. cbn [eventType typed].
  change (keyEvent =? keyEvent) with true. cbn iota.
  change (negb (keyDown _ =? 1)) with false. cbn iota.
  assert (Hnone : toAnsiSeq ar (event (typed c)) = None).
  { unfold toAnsiSeq, typed. cbn [event virtualKeyCode unicodeChar].
    change (case_of 0 _) with false. cbn iota.
    change (alt_held _) with false. now rewrite andb_false_r. }
  change (toAnsiSeq ar _) with (toAnsiSeq ar (event (typed c))).
  rewrite Hnone, H0. cbn [negb Z.eqb]. cbn iota.
  change (unicodeChar (event (typed c))) with c.
  unfold utf16.IsSurrogate, utf16.surr1.
  destruct (Z.leb_spec 0xd800 c); [lia|]. cbn [andb]. cbn iota.
  destruct (Z.eqb_spec c 0); [lia|].
  change (utf8.EncodeRune c) with (fmt_c c). now rewrite fmt_c_ascii by lia.
Qed.

(** X4. With nothing pending, a call of [Read] that gets key-down events of
    unmodified keys carrying ASCII characters returns exactly these
    characters, in order, and leaves nothing pending. *)
Theorem Read_ascii_passthrough (ar : ansiReader) (chars : list Z) :
  lastRune ar = 0 ->
  chars <> [] ->
  Forall (fun c => 1 <= c <= 0x7F) chars ->
  Read ar (Records (map typed chars)) = (ar, (chars, None)).
Proof.
  intros H0 Hne Hall.
  assert (Hfold : forall b,
            fold_left readRecord (map typed chars) (ar, b)
            = (ar, b ++ chars)).
  { clear Hne. induction Hall as [|c chars Hc Hall IH]; intros b.
    - cbn. now rewrite app_nil_r.
    - cbn [map fold_left]. rewrite readRecord_typed_ascii by assumption.
      rewrite IH, <- app_assoc. reflexivity. }
  unfold Read. destruct chars as [|c chars]; [contradiction|].
  cbn [map]. change (fold_left readRecord (typed c :: map typed chars))
    with (fold_left readRecord (map typed (c :: chars))).
  now rewrite Hfold.
Qed.

Lemma Read_ascii_passthrough_witness :
  Read (NewAnsiReader Stdin) (Records (map typed [108; 115]))
  = (NewAnsiReader Stdin, ([108; 115], None)).
Proof.
  apply Read_ascii_passthrough;
    [reflexivity|discriminate|repeat constructor; lia].
Defined.

(** X5. The translation reads the control key state through the four Ctrl
    and Alt bits only: Shift, CapsLock, NumLock, ScrollLock and the
    enhanced-key bit never change the sequence. *)
Theorem toAnsiSeq_other_modifiers (ar : ansiReader) (k : keyEventRecord)
  (state : Z) :
  Z.land state 0xF = Z.land (controlKeyState k) 0xF ->
  toAnsiSeq ar (with_controlKeyState k state) = toAnsiSeq ar k.
Proof.
  intros Hbits.
  assert (Hmask : forall s m, Z.land 0xF m = m ->
            Z.land s m = Z.land (Z.land s 0xF) m).
  { intros s m Hm. now rewrite <- Z.land_assoc, Hm. }
  assert (Hc : ctrl_held (with_controlKeyState k state) = ctrl_held k).
  { unfold ctrl_held. cbn [controlKeyState with_controlKeyState].
    rewrite (Hmask state), (Hmask (controlKeyState k)), Hbits by reflexivity.
    reflexivity. }
  assert (Ha : alt_held (with_controlKeyState k state) = alt_held k).
  { unfold alt_held. cbn [controlKeyState with_controlKeyState].
    rewrite (Hmask state), (Hmask (controlKeyState k)), Hbits by reflexivity.
    reflexivity. }
  unfold toAnsiSeq. rewrite Hc, Ha. reflexivity.
Qed.

Lemma toAnsiSeq_other_modifiers_witness :
  toAnsiSeq (NewAnsiReader Stdin)
    (with_controlKeyState ctrl_right_arrow
       (Z.lor left_ctrl_pressed (Z.lor shift_pressed capslock_on)))
  = toAnsiSeq (NewAnsiReader Stdin) ctrl_right_arrow.
Proof.
  apply toAnsiSeq_other_modifiers. reflexivity.
Defined.

(** ** The Windows terminal modes *)

Lemma int16_small x : - 2 ^ 15 <= x < 2 ^ 15 -> int16 x = x.
Proof.
  intros Hx. unfold int16. rewrite Z.mod_small by lia. lia.
Qed.

(** X6. For a window rectangle with [0 <= left <= right] and
    [0 <= top <= bottom] below the largest [short], [getWindowSize] returns
    [right - left + 1] columns and [bottom - top + 1] rows, both at least
    one, and no error; when the console query fails it returns zero sizes
    and the error. *)
Theorem windows_getWindowSize_inclusive (w : World) (rect : smallRect)
  (errno : Z) :
  (con_window (console w) = inl rect ->
   0 <= left rect <= right rect -> right rect < 2 ^ 15 - 1 ->
   0 <= top rect <= bottom rect -> bottom rect < 2 ^ 15 - 1 ->
   fst (windows.getWindowSize w)
   = (right rect - left rect + 1, bottom rect - top rect + 1, None)
   /\ 1 <= right rect - left rect + 1
   /\ 1 <= bottom rect - top rect + 1)
  /\ (con_window (console w) = inr errno ->
      fst (windows.getWindowSize w) = (0, 0, Some (Errno errno))).
Proof.
  split.
  - intros Hw Hh1 Hh2 Hv1 Hv2.
    unfold windows.getWindowSize, bind, emit, ask, ret. cbn [console fst].
    rewrite Hw. cbn [fst].
    rewrite !int16_small by (rewrite ?int16_small; lia).
    repeat split; lia.
  - intros Hw. unfold windows.getWindowSize, bind, emit, ask, ret.
    cbn [console fst]. now rewrite Hw.
Qed.

Lemma windows_getWindowSize_inclusive_witness :
  fst (windows.getWindowSize (world_of plain_console plain_tty))
  = (80, 24, None).
Proof.
  apply (windows_getWindowSize_inclusive (world_of plain_console plain_tty)
           {| left := 0; top := 0; right := 79; bottom := 23 |} 0);
    cbn; try reflexivity; lia.
Defined.

Lemma wp_bind {A B} (m : M A) (k : A -> M B) Q w :
  wp m (fun a w' => wp (k a) Q w') w -> wp (bind m k) Q w.
Proof. unfold wp, bind. destruct (m w) as [a w']. auto. Qed.

Lemma wp_eq {A} (m : M A) (Q : A -> World -> Prop) w a w' :
  m w = (a, w') -> Q a w' -> wp m Q w.
Proof. unfold wp. now intros ->. Qed.

Lemma wp_ret {A} (a : A) (Q : A -> World -> Prop) w : Q a w -> wp (ret a) Q w.
Proof. auto. Qed.

Lemma wp_ask {A} (f : World -> A) (Q : A -> World -> Prop) w :
  Q (f w) w -> wp (ask f) Q w.
Proof. auto. Qed.

Lemma wp_emit a (Q : unit -> World -> Prop) w :
  Q tt (after w a) -> wp (emit a) Q w.
Proof. auto. Qed.

Lemma wp_getConsoleMode f (Q : Z * option Z -> World -> Prop) w :
  Q match con_mode (console w) f with
    | inl mode => (mode, None)
    | inr e => (0, Some e)
    end (after w (GetConsoleMode f)) ->
  wp (windows.getConsoleMode f) Q w.
Proof.
  unfold wp, windows.getConsoleMode, bind, emit, ask, ret, after.
  cbn [console fst snd]. now destruct (con_mode (console w) f).
Qed.

Lemma wp_setConsoleMode f mode (Q : option Z -> World -> Prop) w :
  (forall e, con_refuses (console w) f mode = Some e ->
     Q (Some e) (after w (SetConsoleMode f mode))) ->
  (con_refuses (console w) f mode = None -> Q None (accepted w f mode)) ->
  wp (windows.setConsoleMode f mode) Q w.
Proof.
  intros Hrefuse Haccept.
  unfold wp, windows.setConsoleMode, bind, emit, ask, ret, put_console.
  cbn [console fst snd].
  destruct (con_refuses (console w) f mode) as [e|]; cbn [fst snd].
  - now apply Hrefuse.
  - now apply Haccept.
Qed.

(** One step of a program of the Windows mode functions. *)
Ltac wp_step :=
  lazy beta iota zeta;
  cbn [console tty remote env_TERM trace after accepted
       windows.with_mode con_refuses con_mode
       windows.stdinMode windows.stdoutMode windows.stderrMode
       windows.emuStdin windows.emuStdout windows.set_stdinMode
       windows.set_stdoutMode windows.set_stderrMode windows.set_emuStdin
       windows.set_emuStdout] in *;
  repeat match goal with
  | H : con_mode (console ?w) ?f = _
    |- context [con_mode (console ?w) ?f] => rewrite H
  | H : (0 <? ?m) = true |- context [0 <? ?m] => rewrite H
  end;
  lazy beta iota zeta;
  lazymatch goal with
  | |- wp (bind _ _) _ _ => apply wp_bind
  | |- wp (ret _) _ _ => apply wp_ret
  | |- wp (emit _) _ _ => apply wp_emit
  | |- wp (ask _) _ _ => apply wp_ask
  | |- wp (windows.getConsoleMode _) _ _ => apply wp_getConsoleMode
  | |- wp (windows.setConsoleMode _ _) _ _ =>
      apply wp_setConsoleMode; [intros ? ?|intros ?]
  | |- wp (if ?b then _ else _) _ _ => destruct b eqn:?
  | |- wp (match ?x with _ => _ end) _ _ => destruct x eqn:?
  end.

(** X7. When the three saved mode words are positive, entering raw mode
    succeeds and the console accepts the original modes back, restoring
    returns no error and every standard handle holds the mode it had before
    raw mode was entered, whichever fallbacks were taken on the way. *)
Theorem windows_change_then_restore (sys : windows.sysInfo) (w : World)
  (mi mo me : Z) :
  mode_in w Stdin = inl mi -> mode_in w Stdout = inl mo ->
  mode_in w Stderr = inl me ->
  0 < mi -> 0 < mo -> 0 < me ->
  con_refuses (console w) Stdin mi = None ->
  con_refuses (console w) Stdout mo = None ->
  con_refuses (console w) Stderr me = None ->
  let entered := windows.changeLocalTerminalMode sys w in
  let restored :=
    windows.restoreLocalTerminalMode (fst (fst entered)) (snd entered) in
  snd (fst entered) = None ->
  fst restored = None
  /\ forall f, mode_in (snd restored) f = mode_in w f.
Proof.
  unfold mode_in.
  intros Hi Ho He Pi Po Pe Ri Ro Re. cbn zeta.
  apply Z.ltb_lt in Pi, Po, Pe.
  change (wp (windows.changeLocalTerminalMode sys)
            (fun r w1 =>
               snd r = None ->
               wp (windows.restoreLocalTerminalMode (fst r))
                 (fun err w2 =>
                    err = None
                    /\ forall f,
                         con_mode (console w2) f = con_mode (console w) f)
                 w1) w).
  unfold windows.changeLocalTerminalMode.
  repeat wp_step.
  all: cbn [fst snd]; try discriminate; intros _.
  all: unfold windows.restoreLocalTerminalMode.
  all: repeat (wp_step; try congruence; try change (0 <? 0) with false).
  all: cbn [is_err orb fst snd] in *; try discriminate.
  all: split; [reflexivity|]; intros []; cbn; congruence.
Qed.

Lemma windows_change_then_restore_witness :
  let w := world_of (console_holding 3 Stdout 0x4) plain_tty in
  let entered := windows.changeLocalTerminalMode windows.new_sysInfo w in
  let restored :=
    windows.restoreLocalTerminalMode (fst (fst entered)) (snd entered) in
  fst restored = None /\ forall f, mode_in (snd restored) f = mode_in w f.
Proof.
  cbn zeta.
  assert (Hok : snd (fst (windows.changeLocalTerminalMode windows.new_sysInfo
                 (world_of (console_holding 3 Stdout 0x4) plain_tty)))
                = None) by (vm_compute; reflexivity).
  apply (windows_change_then_restore windows.new_sysInfo
           (world_of (console_holding 3 Stdout 0x4) plain_tty) 3 3 3);
    try reflexivity; try lia; exact Hok.
Defined.

(** X8. Whenever entering raw mode on Windows returns an error, the console
    is as it was: no mode was changed. *)
Theorem windows_change_error_leaves_console (sys : windows.sysInfo)
  (w : World) (e : error) :
  snd (fst (windows.changeLocalTerminalMode sys w)) = Some e ->
  console (snd (windows.changeLocalTerminalMode sys w)) = console w.
Proof.
  unfold windows.changeLocalTerminalMode.
  unfold windows.getConsoleMode, windows.setConsoleMode, bind, emit, ask, ret,
    put_console.
  destruct (con_mode (console w) Stdin) as [mi|ei] eqn:Hi;
    cbn [console trace fst snd]; rewrite ?Hi; [|reflexivity].
  destruct (con_mode (console w) Stdout) as [mo|eo] eqn:Ho;
    cbn [console trace fst snd]; rewrite ?Ho; [|reflexivity].
  destruct (con_mode (console w) Stderr) as [me|ee] eqn:He;
    cbn [console trace fst snd]; rewrite ?He; [|reflexivity].
  repeat first
    [ progress cbn [console tty remote env_TERM trace fst snd
        windows.with_mode con_refuses con_mode windows.stdinMode
        windows.stdoutMode windows.stderrMode windows.emuStdin
        windows.emuStdout windows.set_stdinMode windows.set_stdoutMode
        windows.set_stderrMode windows.set_emuStdin windows.set_emuStdout
        is_err andb orb]
    | match goal with
      | |- context [match con_refuses ?c ?f ?m with _ => _ end] =>
          destruct (con_refuses c f m)
      | |- context [if windows.emuStdout ?s then _ else _] =>
          destruct (windows.emuStdout s)
      end ].
  all: try discriminate.
  all: reflexivity.
Qed.

Lemma windows_change_error_leaves_console_witness :
  let w :=
    world_of
      (console_with
         (fun f => match f with Stdout => inr 6 | _ => inl 7 end)
         (fun _ _ => None)) plain_tty in
  console (snd (windows.changeLocalTerminalMode windows.new_sysInfo w))
  = console w.
Proof.
  cbn zeta.
  exact (windows_change_error_leaves_console windows.new_sysInfo
           (world_of
              (console_with
                 (fun f => match f with Stdout => inr 6 | _ => inl 7 end)
                 (fun _ _ => None)) plain_tty)
           (Errorf "failed to get local stdout mode: %s" (Errno 6))
           eq_refl).
Defined.

(** X9. With three positive saved mode words, restoring asks the console
    for each of the three modes in the order stdin, stdout, stderr, whatever
    the console answers to the earlier ones, and returns no error exactly
    when the console accepted all three. *)
Theorem windows_restore_attempts_all (sys : windows.sysInfo) (w : World) :
  0 < windows.stdinMode sys -> 0 < windows.stdoutMode sys ->
  0 < windows.stderrMode sys ->
  let restored := windows.restoreLocalTerminalMode sys w in
  added w (snd restored)
  = [SetConsoleMode Stdin (windows.stdinMode sys);
     SetConsoleMode Stdout (windows.stdoutMode sys);
     SetConsoleMode Stderr (windows.stderrMode sys)]
  /\ (fst restored = None <->
      con_refuses (console w) Stdin (windows.stdinMode sys) = None
      /\ con_refuses (console w) Stdout (windows.stdoutMode sys) = None
      /\ con_refuses (console w) Stderr (windows.stderrMode sys) = None).
Proof.
  intros Pi Po Pe. cbn zeta. apply Z.ltb_lt in Pi, Po, Pe.
  change (wp (windows.restoreLocalTerminalMode sys)
            (fun err w2 =>
               added w w2
               = [SetConsoleMode Stdin (windows.stdinMode sys);
                  SetConsoleMode Stdout (windows.stdoutMode sys);
                  SetConsoleMode Stderr (windows.stderrMode sys)]
               /\ (err = None <->
                   con_refuses (console w) Stdin (windows.stdinMode sys)
                   = None
                   /\ con_refuses (console w) Stdout (windows.stdoutMode sys)
                      = None
                   /\ con_refuses (console w) Stderr (windows.stderrMode sys)
                      = None)) w).
  unfold windows.restoreLocalTerminalMode.
  repeat wp_step.
  all: cbn [is_err orb console after accepted con_refuses windows.with_mode]
         in *; lazy beta iota zeta; try discriminate.
  all: split;
    [ unfold added; cbn [trace after accepted]; rewrite <- ?app_assoc;
      apply drop_app_length
    | split; [try discriminate; auto|intros (? & ? & ?); congruence] ].
Qed.

Lemma windows_restore_attempts_all_witness :
  let sys :=
    windows.set_stdinMode
      (windows.set_stdoutMode
         (windows.set_stderrMode windows.new_sysInfo 7) 7) 7 in
  let w := world_of plain_console plain_tty in
  added w (snd (windows.restoreLocalTerminalMode sys w))
  = [SetConsoleMode Stdin 7; SetConsoleMode Stdout 7;
     SetConsoleMode Stderr 7].
Proof.
  cbn zeta.
  apply (windows_restore_attempts_all
           (windows.set_stdinMode
              (windows.set_stdoutMode
                 (windows.set_stderrMode windows.new_sysInfo 7) 7) 7)
           (world_of plain_console plain_tty)); cbn; lia.
Defined.

(** ** The POSIX terminal mode *)

(** X10. On POSIX, when [MakeRaw] and [Restore] meet no failure, entering
    raw mode installs the raw settings and saves the previous ones, and
    restoring puts the previous settings back; when [MakeRaw] fails nothing
    is saved, the settings stay, and restoring afterwards makes no call. *)
Theorem unix_change_then_restore (sys : unix.sysInfo) (w : World) :
  let entered := unix.changeLocalTerminalMode sys w in
  let restored :=
    unix.restoreLocalTerminalMode (fst (fst entered)) (snd entered) in
  (tty_makeRaw_err (tty w) = None ->
   tty_restore_err (tty w) = None ->
   snd (fst entered) = None
   /\ tty_state (tty (snd entered)) = tty_raw (tty w) (tty_state (tty w))
   /\ fst restored = None
   /\ tty_state (tty (snd restored)) = tty_state (tty w))
  /\ (forall e, tty_makeRaw_err (tty w) = Some e ->
      snd (fst entered)
      = Some (Errorf "failed to set stdin to raw mode: %s" e)
      /\ tty (snd entered) = tty w
      /\ restored = (None, snd entered)).
Proof.
  cbn zeta.
  unfold unix.changeLocalTerminalMode, unix.restoreLocalTerminalMode,
    unix.terminal_MakeRaw, unix.terminal_Restore, bind, emit, ask, ret,
    put_tty.
  cbn [tty fst snd]. split.
  - intros Hraw Hrestore. rewrite Hraw. cbn. rewrite Hrestore. cbn. auto.
  - intros e Hraw. rewrite Hraw. cbn. auto.
Qed.

Lemma unix_change_then_restore_witness :
  let w := world_of plain_console plain_tty in
  let entered := unix.changeLocalTerminalMode unix.new_sysInfo w in
  let restored :=
    unix.restoreLocalTerminalMode (fst (fst entered)) (snd entered) in
  tty_state (tty (snd entered)) = 0
  /\ tty_state (tty (snd restored)) = 1.
Proof.
  cbn zeta.
  destruct (unix_change_then_restore unix.new_sysInfo
              (world_of plain_console plain_tty)) as [Hok _].
  destruct (Hok eq_refl eq_refl) as (_ & H1 & _ & H2).
  split; [exact H1|exact H2].
Defined.

(** ** The session runner, continued *)





(** X12. On either platform, when the size query succeeds and the remote
    side grants every request, [prepareRemoteTerminal] does, in this order:
    read TERM, query the size, request the pseudo-terminal (unless NoTTY)
    with TERM, or "xterm" when TERM is empty, the height as rows and the
    width as columns, open the stdin, stdout and stderr pipes and start the
    shell; it returns no error and the three pipes are set. *)
Theorem prepareRemoteTerminal_order (P : Platform) (ms : MinSSH P)
  (w : World) (cols rows : Z) :
  P = on_windows \/ P = on_unix ->
  fst (getWindowSize P w) = (cols, rows, None) ->
  grants_all (remote w) = true ->
  let term := if String.eqb (env_TERM w) "" then "xterm"%string
              else env_TERM w in
  let done := prepareRemoteTerminal P ms w in
  snd (fst done) = None
  /\ (rStdin P (fst (fst done)), rStdout P (fst (fst done)),
      rStderr P (fst (fst done))) = (true, true, true)
  /\ added w (snd done)
     = [Getenv "TERM"; GetWindowSize]
       ++ (if NoTTY (conf P ms) then [] else [RequestPty term rows cols])
       ++ [StdinPipe; StdoutPipe; StderrPipe; Shell].
Proof.
  intros HP Hsize Hgrants. cbn zeta.
  unfold grants_all in Hgrants.
  destruct (remote w) as [r1 r2 r3 r4 r5 ending] eqn:Hr.
  cbn [rem_RequestPty rem_StdinPipe rem_StdoutPipe rem_StderrPipe rem_Shell]
    in Hgrants.
  destruct r1, r2, r3, r4, r5; try discriminate. clear Hgrants.
  assert (Hsize' : forall a,
            getWindowSize P (after w a)
            = (cols, rows, None, after (after w a) GetWindowSize)).
  { intros a. destruct HP as [-> | ->]; revert Hsize;
      cbn [getWindowSize on_windows on_unix];
      unfold windows.getWindowSize, unix.getWindowSize, bind, emit, ask, ret,
        after; cbn [console tty fst snd].
    - destruct (con_window (console w)); cbn [fst]; now intros [= <- <-].
    - now intros ->. }
  change (wp (prepareRemoteTerminal P ms)
            (fun r w1 =>
               snd r = None
               /\ (rStdin P (fst r), rStdout P (fst r), rStderr P (fst r))
                  = (true, true, true)
               /\ added w w1
                  = [Getenv "TERM"; GetWindowSize]
                    ++ (if NoTTY (conf P ms) then []
                        else [RequestPty
                                (if String.eqb (env_TERM w) ""
                                 then "xterm"%string else env_TERM w)
                                rows cols])
                    ++ [StdinPipe; StdoutPipe; StderrPipe; Shell]) w).
  unfold prepareRemoteTerminal, request, defaultTermName.
  apply wp_bind, wp_emit. lazy beta. apply wp_bind, wp_ask. lazy beta.
  apply wp_bind. eapply wp_eq; [apply Hsize'|]. lazy beta iota.
  destruct (NoTTY (conf P ms)); cbn [negb].
  all: repeat
    (lazy beta iota zeta; cbn [remote after]; rewrite ?Hr;
     cbn [rem_RequestPty rem_StdinPipe rem_StdoutPipe rem_StderrPipe
          rem_Shell];
     lazy beta iota zeta;
     lazymatch goal with
     | |- wp (bind _ _) _ _ => apply wp_bind
     | |- wp (ret _) _ _ => apply wp_ret
     | |- wp (emit _) _ _ => apply wp_emit
     | |- wp (ask _) _ _ => apply wp_ask
     end).
  all: cbn [fst snd is_err negb set_rStdin set_rStdout set_rStderr rStdin
            rStdout rStderr].
  all: split; [reflexivity|]; split; [reflexivity|].
  all: unfold added; cbn [trace after]; rewrite <- ?app_assoc;
    apply drop_app_length.
Qed.

Lemma prepareRemoteTerminal_order_witness :
  added world_exit_1
    (snd (prepareRemoteTerminal on_unix (opened on_unix example_conf)
            world_exit_1))
  = [Getenv "TERM"; GetWindowSize; RequestPty "xterm" 24 80;
     StdinPipe; StdoutPipe; StderrPipe; Shell].
Proof.
  apply (prepareRemoteTerminal_order on_unix (opened on_unix example_conf)
           world_exit_1 80 24); [now right|reflexivity|reflexivity].
Defined.

(** ** The pumps, continued *)

Section StdinPumpMore.

Context (P : Platform) (s : sysInfo P).

(** X13. While every read and every write succeeds, the local-input
    goroutine writes to the remote stdin exactly the bytes its reads
    deliver, in order and unchanged; it closes nothing, and is still in its
    loop when standard input has nothing more for now. *)
Theorem stdinPump_passthrough (answers : list stdinAnswer) :
  forallb (turn_passes P s) answers = true ->
  written (fst (stdinPump P s answers)) = delivered P s answers
  /\ count is_close (fst (stdinPump P s answers)) = 0%nat
  /\ snd (stdinPump P s answers) = Blocked.
Proof.
  unfold delivered.
  induction answers as [|a answers IH]; intros Hall; [now cbn|].
  cbn [forallb] in Hall. apply andb_prop in Hall as [Ha Hall].
  destruct (IH Hall) as (Hw & Hc & Hs). clear IH.
  unfold turn_passes, read_ends in Ha.
  cbn [stdinPump map concat].
  destruct (readFromStdin P s (stdin_holds a)) as [buf [e|]];
    [discriminate|].
  cbn [fst snd is_err negb andb] in Ha.
  destruct buf as [|c buf].
  - cbn. auto.
  - cbn [length Nat.eqb orb] in Ha.
    destruct (write_err a); [discriminate|].
    change (0 <? Z.of_nat (length (c :: buf))) with true. cbn iota.
    destruct (stdinPump P s answers) as [acts st].
    cbn [fst snd written count is_close] in *.
    rewrite Hw. auto.
Qed.

(** X14. When a write to the remote stdin fails, the goroutine logs the
    failure and returns at once: it does not close the remote stdin and it
    reads nothing more. *)
Theorem stdinPump_write_failure (pre post : list stdinAnswer)
  (a : stdinAnswer) (e : error) :
  forallb (turn_passes P s) pre = true ->
  snd (readFromStdin P s (stdin_holds a)) = None ->
  fst (readFromStdin P s (stdin_holds a)) <> [] ->
  write_err a = Some e ->
  exists acts,
    stdinPump P s (pre ++ a :: post)
    = (acts ++ [RStdinWrite (fst (readFromStdin P s (stdin_holds a)));
                LogPrintf "failed to write bytes to remote stdin: %s\n"
                  [AErr e]], Returned)
    /\ written acts = delivered P s pre
    /\ count is_close (fst (stdinPump P s (pre ++ a :: post))) = 0%nat.
Proof.
  intros Hpre Hread Hbuf Hwrite.
  destruct (stdinPump_passthrough pre Hpre) as (Hw & Hc & Hs).
  assert (Hlast : stdinPump P s (a :: post)
                  = ([RStdinWrite (fst (readFromStdin P s (stdin_holds a)));
                      LogPrintf "failed to write bytes to remote stdin: %s\n"
                        [AErr e]], Returned)).
  { cbn [stdinPump].
    destruct (readFromStdin P s (stdin_holds a)) as [buf err].
    cbn [fst snd] in *. subst err.
    destruct buf as [|c buf]; [contradiction|].
    change (0 <? Z.of_nat (length (c :: buf))) with true. cbn iota.
    now rewrite Hwrite. }
  clear Hread Hbuf Hwrite. revert Hw Hc Hs.
  induction pre as [|t pre IH].
  - intros _ _ _. exists []. cbn [app]. rewrite Hlast. cbn. auto.
  - cbn [forallb] in Hpre. apply andb_prop in Hpre as [Ht Hpre].
    destruct (stdinPump_passthrough pre Hpre) as (Hw' & Hc' & Hs').
    destruct (IH Hpre Hw' Hc' Hs') as (acts & E & Hwa & Hca). clear IH.
    intros _ _ _.
    unfold turn_passes, read_ends in Ht.
    unfold delivered in *. cbn [app stdinPump map concat].
    rewrite E in *.
    destruct (readFromStdin P s (stdin_holds t)) as [buf [e'|]];
      [discriminate|].
    cbn [fst snd is_err negb andb] in Ht.
    destruct buf as [|c buf].
    + exists acts. cbn. auto.
    + cbn [length Nat.eqb orb] in Ht.
      destruct (write_err t); [discriminate|].
      change (0 <? Z.of_nat (length (c :: buf))) with true. cbn iota.
      exists (RStdinWrite (c :: buf) :: acts).
      cbn [app fst written count is_close] in *. rewrite Hwa. auto.
Qed.

End StdinPumpMore.

Lemma stdinPump_passthrough_witness :
  let ls := {| stdin_holds :=
                 {| as_records := Records [];
                    as_bytes := ([108; 115; 10], None) |};
               write_err := None |} in
  written (fst (stdinPump on_unix unix.new_sysInfo [ls; ls]))
  = [108; 115; 10; 108; 115; 10].
Proof.
  cbn zeta.
  apply (stdinPump_passthrough on_unix unix.new_sysInfo
           [{| stdin_holds :=
                 {| as_records := Records [];
                    as_bytes := ([108; 115; 10], None) |};
               write_err := None |};
            {| stdin_holds :=
                 {| as_records := Records [];
                    as_bytes := ([108; 115; 10], None) |};
               write_err := None |}]).
  reflexivity.
Defined.

Lemma stdinPump_write_failure_witness :
  let ls := {| stdin_holds :=
                 {| as_records := Records [];
                    as_bytes := ([108; 115; 10], None) |};
               write_err := Some EOF |} in
  exists acts,
    stdinPump on_unix unix.new_sysInfo ([] ++ ls :: [ls])
    = (acts ++ [RStdinWrite [108; 115; 10];
                LogPrintf "failed to write bytes to remote stdin: %s\n"
                  [AErr EOF]], Returned)
    /\ written acts = []
    /\ count is_close
         (fst (stdinPump on_unix unix.new_sysInfo ([] ++ ls :: [ls])))
       = 0%nat.
Proof.
  cbn zeta.
  apply (stdinPump_write_failure on_unix unix.new_sysInfo [] _
           {| stdin_holds :=
                {| as_records := Records [];
                   as_bytes := ([108; 115; 10], None) |};
              write_err := Some EOF |} EOF);
    [reflexivity|reflexivity|discriminate|reflexivity].
Defined.

(** X15. While no notification brings a size other than the last one
    recorded (the size is the same, or the query fails), the resize
    goroutine sends no request. *)
Theorem resizeLoop_no_news (w h : Z) (wakes : list wake) :
  forallb (no_news w h) wakes = true ->
  count is_request (fst (resizeLoop (w, h) wakes)) = 0%nat.
Proof.
  induction wakes as [|wk wakes IH]; [reflexivity|].
  cbn [forallb]. intros Hall. apply andb_prop in Hall as [Hwk Hall].
  specialize (IH Hall).
  destruct wk as [| |[[newW newH] [e|]] send_err]; try reflexivity.
  - rewrite resizeLoop_notified. cbn [resizeTurn].
    destruct (resizeLoop (w, h) wakes) as [acts st]. exact IH.
  - cbn [no_news] in Hwk. rewrite resizeLoop_notified.
    unfold resizeTurn. rewrite Hwk.
    destruct (resizeLoop (w, h) wakes) as [acts st]. exact IH.
Qed.

Lemma resizeLoop_no_news_witness :
  count is_request
    (fst (resizeLoop (80, 24)
            [Notified (80, 24, None) None;
             Notified (0, 0, Some EOF) None;
             Notified (80, 24, None) None])) = 0%nat.
Proof.
  apply resizeLoop_no_news. reflexivity.
Defined.

Lemma resizeTurn_requests wh size send_err :
  (count is_request (snd (resizeTurn wh size send_err)) <= 1)%nat.
Proof.
  destruct wh as [w h]. destruct size as [[newW newH] [e|]];
    unfold resizeTurn; [cbn; lia|].
  destruct ((newW =? w) && (newH =? h)); [cbn; lia|].
  destruct send_err; cbn; lia.
Qed.

(** X16. The resize goroutine sends at most one request per wake-up, and
    none for the wake-ups that come after the context is done or the
    channel is closed. *)
Theorem resizeLoop_requests_bounded (wh : Z * Z) (wakes rest : list wake) :
  (count is_request (fst (resizeLoop wh wakes)) <= length wakes)%nat
  /\ resizeLoop wh (wakes ++ CtxDone :: rest)
     = resizeLoop wh (wakes ++ [CtxDone])
  /\ resizeLoop wh (wakes ++ ChClosed :: rest)
     = resizeLoop wh (wakes ++ [ChClosed])
  /\ snd (resizeLoop wh (wakes ++ [CtxDone])) = Returned
  /\ snd (resizeLoop wh (wakes ++ [ChClosed])) = Returned.
Proof.
  revert wh. induction wakes as [|wk wakes IH]; intros wh.
  - cbn. repeat split; lia.
  - destruct wk as [| |size send_err]; try (cbn; repeat split; lia).
    cbn [app]. rewrite !resizeLoop_notified.
    pose proof (resizeTurn_requests wh size send_err) as Hturn.
    destruct (resizeTurn wh size send_err) as [wh' acts].
    destruct (IH wh') as (Hn & E1 & E2 & S1 & S2). rewrite E1, E2.
    destruct (resizeLoop wh' wakes) as [acts' st].
    destruct (resizeLoop wh' (wakes ++ [CtxDone])) as [acts1 st1].
    destruct (resizeLoop wh' (wakes ++ [ChClosed])) as [acts2 st2].
    cbn [fst snd length] in *. rewrite count_app.
    repeat split; auto; lia.
Qed.

(** ** The resize watcher, continued *)

Module watcher_safety.
Import watcher.

Lemma safe_init : watcher_safe init.
Proof.
  unfold watcher_safe, ch_cap. cbn.
  split; [lia|]. split; [discriminate|reflexivity].
Qed.

Lemma safe_step m st st' :
  watcher_safe st -> step m st = Some st' -> watcher_safe st'.
Proof.
  unfold watcher_safe, ch_cap.
  destruct st as [aw ar len closes ready done].
  cbn [ch_len ch_closes at_w]. intros (Hlen & Hret & Hrun) Hstep.
  assert (Hcloses : closes = match aw with WReturned => 1 | _ => 0 end%nat).
  { destruct aw; [apply Hrun|apply Hrun|apply Hret]; congruence. }
  clear Hret Hrun. subst closes.
  destruct m; cbn [step at_w at_r ch_len ch_closes source_ready ctx_done]
    in Hstep;
    repeat match type of Hstep with
    | match ?x with _ => _ end = _ => destruct x eqn:?
    | (if ?x then _ else _) = _ => destruct x eqn:?
    end; try discriminate; injection Hstep as <-;
    cbn [ch_len ch_closes at_w];
    repeat match goal with
    | H : (_ <? _)%nat = true |- _ => apply Nat.ltb_lt in H
    end;
    unfold ch_cap in *; cbn in *;
    (split; [lia|]); split; intros; try congruence;
    destruct aw; congruence.
Qed.

Lemma safe_run moves st st' :
  watcher_safe st -> run moves st = Some st' -> watcher_safe st'.
Proof.
  revert st. induction moves as [|m moves IH]; intros st Hst Hrun;
    cbn [run] in Hrun.
  - now injection Hrun as <-.
  - destruct (step m st) as [st1|] eqn:Hstep; [|discriminate].
    eapply IH; [|exact Hrun]. eapply safe_step; eauto.
Qed.

End watcher_safety.

(** X17. Whatever the schedule, the notification channel never holds more
    than one element, it is closed at most once, and only by the return of
    the watcher: the watcher never sends on the closed channel and never
    closes it twice. *)
Theorem watcher_channel_safe (moves : list watcher.move)
  (st : watcher.state) :
  watcher.run moves watcher.init = Some st ->
  (watcher.ch_len st <= 1)%nat
  /\ (watcher.ch_closes st <= 1)%nat
  /\ (watcher.ch_closes st = 1%nat <->
      watcher.at_w st = watcher.WReturned)
  /\ (watcher.at_w st = watcher.WSend -> watcher.ch_closes st = 0%nat).
Proof.
  intros Hrun.
  destruct (watcher_safety.safe_run moves watcher.init st
              watcher_safety.safe_init Hrun) as (Hlen & Hret & Hrunning).
  unfold watcher.ch_cap in Hlen.
  split; [exact Hlen|].
  destruct (watcher.at_w st) eqn:Hw.
  - rewrite Hrunning by discriminate.
    repeat split; auto; try lia; discriminate.
  - rewrite Hrunning by discriminate.
    repeat split; auto; try lia; discriminate.
  - rewrite Hret by reflexivity. repeat split; auto; discriminate.
Qed.

Lemma watcher_channel_safe_witness :
  let st :=
    {| watcher.at_w := watcher.WSend; watcher.at_r := watcher.RReturned;
       watcher.ch_len := 1; watcher.ch_closes := 0;
       watcher.source_ready := false; watcher.ctx_done := true |} in
  (watcher.ch_len st <= 1)%nat
  /\ (watcher.ch_closes st <= 1)%nat
  /\ (watcher.ch_closes st = 1%nat <->
      watcher.at_w st = watcher.WReturned)
  /\ (watcher.at_w st = watcher.WSend -> watcher.ch_closes st = 0%nat).
Proof.
  cbn zeta.
  apply (watcher_channel_safe stuck_schedule). vm_compute. reflexivity.
Defined.

(** X18. From every state a schedule can reach in which the context is
    cancelled and the reader of the channel has not returned, there is a
    continuation after which the watcher has returned and the channel is
    closed exactly once: the watcher is lost only when its reader leaves
    first. *)
Theorem watcher_returns_with_reader (moves : list watcher.move)
  (st : watcher.state) :
  watcher.run moves watcher.init = Some st ->
  watcher.ctx_done st = true ->
  watcher.at_r st <> watcher.RReturned ->
  exists st',
    watcher.run (way_out st) st = Some st'
    /\ watcher.at_w st' = watcher.WReturned
    /\ watcher.ch_closes st' = 1%nat.
Proof.
  intros Hrun Hdone Hreader.
  destruct (watcher_safety.safe_run moves watcher.init st
              watcher_safety.safe_init Hrun) as (Hlen & Hret & Hrunning).
  unfold watcher.ch_cap in Hlen.
  destruct st as [aw ar len closes ready done].
  cbn [watcher.ch_len watcher.ch_closes watcher.at_w watcher.at_r
       watcher.ctx_done] in *.
  subst done. unfold way_out, watcher.ch_cap.
  cbn [watcher.at_w watcher.at_r watcher.ch_len].
  destruct aw.
  - rewrite Hrunning by discriminate. eexists. split; [reflexivity|now cbn].
  - rewrite Hrunning by discriminate.
    destruct len as [|[|len]]; [| |lia].
    + eexists. split; [reflexivity|now cbn].
    + destruct ar; [| |contradiction].
      * eexists. split; [reflexivity|now cbn].
      * eexists. split; [reflexivity|now cbn].
  - rewrite Hret by reflexivity. eexists. split; [reflexivity|now cbn].
Qed.

Lemma watcher_returns_with_reader_witness :
  exists st',
    watcher.run
      [watcher.ReaderHandled; watcher.ReaderRecv; watcher.WatcherSend;
       watcher.WatcherDone]
      {| watcher.at_w := watcher.WSend; watcher.at_r := watcher.RHandle;
         watcher.ch_len := 1; watcher.ch_closes := 0;
         watcher.source_ready := false; watcher.ctx_done := true |}
    = Some st'
    /\ watcher.at_w st' = watcher.WReturned
    /\ watcher.ch_closes st' = 1%nat.
Proof.
  apply (watcher_returns_with_reader
           [ watcher.Resize; watcher.WatcherSource; watcher.WatcherSend;
             watcher.ReaderRecv;
             watcher.Resize; watcher.WatcherSource; watcher.WatcherSend;
             watcher.Resize; watcher.WatcherSource; watcher.CancelCtx ]
           {| watcher.at_w := watcher.WSend; watcher.at_r := watcher.RHandle;
              watcher.ch_len := 1; watcher.ch_closes := 0;
              watcher.source_ready := false; watcher.ctx_done := true |});
    [vm_compute; reflexivity|reflexivity|discriminate].
Defined.

(** ** The default user *)

Lemma getDefaultUser_loop_first env pre key post username :
  Forall (fun k => Getenv_in env k = ""%string) pre ->
  Getenv_in env key <> ""%string ->
  getDefaultUser_loop env (pre ++ key :: post) username = Getenv_in env key.
Proof.
  intros Hpre Hkey. revert username.
  induction Hpre as [|k pre Hk Hpre IH]; intros username; cbn.
  - destruct (String.eqb_spec (Getenv_in env key) ""); [contradiction|].
    reflexivity.
  - rewrite Hk. cbn. apply IH.
Qed.

Lemma getDefaultUser_loop_none env keys :
  Forall (fun k => Getenv_in env k = ""%string) keys ->
  getDefaultUser_loop env keys "" = ""%string.
Proof.
  induction 1 as [|k keys Hk Hkeys IH]; cbn; [reflexivity|].
  rewrite Hk. cbn. exact IH.
Qed.

Lemma getDefaultUser_loop_empty env keys :
  getDefaultUser_loop env keys "" = ""%string ->
  Forall (fun k => Getenv_in env k = ""%string) keys.
Proof.
  induction keys as [|k keys IH]; cbn; [constructor|].
  destruct (String.eqb_spec (Getenv_in env k) "") as [E|E]; cbn.
  - rewrite E. intros H. constructor; auto.
  - intros H. contradiction.
Qed.

(** X19. The default user is the value of the first of LOGNAME, USER,
    LNAME, USERNAME that is set to a non-empty string; it is empty exactly
    when none of the four is.  In particular a non-empty LOGNAME wins over
    everything else in the environment. *)
Theorem getDefaultUser_first_set (env : gmap string string)
  (pre post : list string) (key user : string) :
  (userKeys = pre ++ key :: post ->
   Forall (fun k => Getenv_in env k = ""%string) pre ->
   Getenv_in env key <> ""%string ->
   getDefaultUser env = Getenv_in env key)
  /\ (getDefaultUser env = ""%string <->
      Forall (fun k => Getenv_in env k = ""%string) userKeys)
  /\ (user <> ""%string ->
      getDefaultUser (<["LOGNAME"%string := user]> env) = user).
Proof.
  split; [|split].
  - intros Hkeys Hpre Hkey. unfold getDefaultUser. rewrite Hkeys.
    now apply getDefaultUser_loop_first.
  - split.
    + apply getDefaultUser_loop_empty.
    + apply getDefaultUser_loop_none.
  - intros Huser.
    assert (Hlog : Getenv_in (<["LOGNAME"%string := user]> env) "LOGNAME"
                   = user).
    { unfold Getenv_in. now rewrite lookup_insert_eq. }
    unfold getDefaultUser, userKeys. rewrite <- Hlog at 2.
    apply (getDefaultUser_loop_first _ [] "LOGNAME"); [constructor|].
    now rewrite Hlog.
Qed.

Lemma getDefaultUser_first_set_witness :
  getDefaultUser {[ "USER"%string := "alice"%string ]} = "alice"%string.
Proof.
  destruct (getDefaultUser_first_set
              {[ "USER"%string := "alice"%string ]}
              ["LOGNAME"%string] ["LNAME"%string; "USERNAME"%string]
              "USER" "alice") as [Hfirst _].
  apply Hfirst; [reflexivity|repeat constructor|discriminate].
Defined.

(** ** The authentication prompts *)

Lemma challenge_loop_spec rp questions :
  forall i answers,
    length answers = (i + length questions)%nat ->
    let r := challenge_loop rp i questions answers in
    length (fst r) = length answers
    /\ (forall j, (j < i)%nat -> fst r !! j = answers !! j)
    /\ match snd r with
       | None =>
           forall j q, questions !! j = Some q ->
             snd (rp (i + j)%nat q) = None
             /\ fst r !! (i + j)%nat = Some (fst (rp (i + j)%nat q))
       | Some e =>
           exists k q,
             questions !! k = Some q
             /\ snd (rp (i + k)%nat q) = Some e
             /\ (forall j q', (j < k)%nat -> questions !! j = Some q' ->
                   snd (rp (i + j)%nat q') = None
                   /\ fst r !! (i + j)%nat
                      = Some (fst (rp (i + j)%nat q')))
             /\ (forall j, (i + k <= j)%nat -> fst r !! j = answers !! j)
       end.
Proof.
  induction questions as [|q questions IH]; intros i answers Hlen; cbn zeta.
  - cbn. split; [reflexivity|]. split; [reflexivity|]. intros ? ? [=].
  - cbn [challenge_loop].
    destruct (rp i q) as [res [e|]] eqn:Hrp; cbn [fst snd].
    + split; [reflexivity|]. split; [reflexivity|].
      exists 0%nat, q. rewrite Nat.add_0_r, Hrp.
      repeat split; auto; intros; lia.
    + cbn [length] in Hlen.
      specialize (IH (S i) (<[i:=res]> answers)).
      rewrite length_insert in IH.
      destruct IH as (Hl & Hbefore & Hrest); [lia|].
      cbn zeta in *. split; [exact Hl|]. split.
      * intros j Hj. rewrite Hbefore by lia.
        apply list_lookup_insert_ne. lia.
      * assert (Hi : fst (challenge_loop rp (S i) questions
                            (<[i:=res]> answers)) !! i = Some res).
        { rewrite Hbefore by lia. apply list_lookup_insert_eq. lia. }
        destruct (snd (challenge_loop rp (S i) questions
                         (<[i:=res]> answers))) as [e|].
        -- destruct Hrest as (k & q0 & Hk & Hfail & Hok & Hafter).
           exists (S k), q0. rewrite <- Nat.add_succ_comm.
           split; [exact Hk|]. split; [exact Hfail|]. split.
           ++ intros [|j] q' Hj Hq'.
              ** cbn in Hq'. injection Hq' as <-.
                 rewrite Nat.add_0_r, Hrp. auto.
              ** cbn in Hq'. rewrite <- Nat.add_succ_comm.
                 apply Hok; [lia|exact Hq'].
           ++ intros j Hj. rewrite Hafter by lia.
              apply list_lookup_insert_ne. lia.
        -- intros [|j] q0 Hq0.
           ++ cbn in Hq0. injection Hq0 as <-.
              rewrite Nat.add_0_r, Hrp. auto.
           ++ cbn in Hq0. rewrite <- Nat.add_succ_comm. now apply Hrest.
Qed.

(** X20. [keyboardInteractiveChallenge] always returns as many answers as
    there are questions.  When every [readPassword] succeeds, answer [j] is
    what was read for question [j]; when one fails, its error is returned,
    the answers read before it are in place and the others are empty.  What
    it prints before the questions is the fixed line with the configured
    user and host when there is a question, and nothing otherwise: the
    [user] and [instruction] it is given are never shown. *)
Theorem keyboardInteractiveChallenge_answers (c : Config)
  (readPassword : nat -> string -> string * option error)
  (user instruction : string) (questions : list string)
  (echos : list bool) :
  let r :=
    keyboardInteractiveChallenge c readPassword user instruction questions
      echos in
  let answers := fst (snd r) in
  length answers = length questions
  /\ fst r
     = match questions with
       | [] => []
       | _ => [Printf "Keyboard interactive challenge for %s@%s\n"
                 [AStr (User c); AStr (Host c)]]
       end
  /\ match snd (snd r) with
     | None =>
         forall j q, questions !! j = Some q ->
           snd (readPassword j q) = None
           /\ answers !! j = Some (fst (readPassword j q))
     | Some e =>
         exists k q,
           questions !! k = Some q
           /\ snd (readPassword k q) = Some e
           /\ (forall j q', (j < k)%nat -> questions !! j = Some q' ->
                 snd (readPassword j q') = None
                 /\ answers !! j = Some (fst (readPassword j q')))
           /\ (forall j, (k <= j < length questions)%nat ->
                 answers !! j = Some ""%string)
     end.
Proof.
  cbn zeta. unfold keyboardInteractiveChallenge. cbn [fst snd].
  destruct (challenge_loop_spec readPassword questions 0
              (replicate (length questions) ""%string))
    as (Hlen & _ & Hrest).
  { now rewrite length_replicate. }
  cbn zeta in *. rewrite length_replicate in Hlen.
  split; [exact Hlen|]. split.
  - destruct questions; [reflexivity|].
    cbn [length Nat.ltb Nat.leb]. destruct (negb _), (negb _); reflexivity.
  - destruct (snd (challenge_loop readPassword 0 questions
                     (replicate (length questions) ""%string))) as [e|].
    + destruct Hrest as (k & q & Hk & Hfail & Hok & Hafter).
      exists k, q. repeat split; auto.
      * now apply Hok.
      * now apply Hok.
      * intros j [Hj1 Hj2]. rewrite Hafter by lia.
        now apply lookup_replicate_2.
    + exact Hrest.
Qed.

Lemma keyboardInteractiveChallenge_answers_witness :
  let rp := fun (i : nat) (q : string) =>
              if (i =? 1)%nat then (""%string, Some EOF)
              else (q, @None error) in
  length
    (fst (snd (keyboardInteractiveChallenge example_conf rp "bob"
                 "type the codes" ["first"; "second"; "third"]%string
                 [true; true; true]))) = 3%nat.
Proof.
  cbn zeta.
  exact (proj1 (keyboardInteractiveChallenge_answers example_conf
    (fun (i : nat) (q : string) =>
       if (i =? 1)%nat then (""%string, Some EOF) else (q, @None error))
    "bob" "type the codes" ["first"; "second"; "third"]%string
    [true; true; true])).
Defined.

Section AskingFacts.

Context (normalize : string -> string).

Lemma ask_loop_unclear pre lines :
  forallb (unclear normalize) pre = true ->
  ask_loop normalize (pre ++ lines)
  = (replicate (length pre)
       (Printf "%s" [AStr "Please type 'yes' or 'no': "])
     ++ fst (ask_loop normalize lines),
     snd (ask_loop normalize lines)).
Proof.
  induction pre as [|[answer err] pre IH]; intros Hpre.
  - cbn. now destruct (ask_loop normalize lines).
  - cbn [forallb] in Hpre. apply andb_prop in Hpre as [Hline Hpre].
    unfold unclear in Hline. cbn [fst snd] in Hline.
    apply andb_prop in Hline as [Hline Hno].
    apply andb_prop in Hline as [Herr Hyes].
    destruct err; [discriminate|].
    cbn [app ask_loop]. rewrite (IH Hpre).
    destruct (String.eqb (normalize answer) "yes"); [discriminate|].
    destruct (String.eqb (normalize answer) "no"); [discriminate|].
    reflexivity.
Qed.

(** X21. [askAddingUnknownHostKey] is decided by the first line that fails
    to be read or that is yes or no once trimmed and lowered: it answers
    true only for a yes, false for a no, and false with an error for a
    failed read, so the end of the input never accepts a key.  Every line
    before that one is answered by one more "Please type" prompt, and while
    no such line has come the function is still waiting. *)
Theorem askAddingUnknownHostKey_decided (address remote fingerprint : string)
  (pre post : list (string * option error)) (line : string * option error) :
  forallb (unclear normalize) pre = true ->
  unclear normalize line = false ->
  let ask := askAddingUnknownHostKey normalize address remote fingerprint in
  snd (ask (pre ++ line :: post))
  = Some match snd line with
         | Some e => (false, Some (Errorf "failed to read answer: %s" e))
         | None => (String.eqb (normalize (fst line)) "yes", None)
         end
  /\ fst (ask (pre ++ line :: post))
     = fst (ask []) ++
       replicate (length pre)
         (Printf "%s" [AStr "Please type 'yes' or 'no': "])
  /\ snd (ask pre) = None.
Proof.
  intros Hpre Hline. cbn zeta. unfold askAddingUnknownHostKey.
  rewrite (ask_loop_unclear pre (line :: post) Hpre).
  pose proof (ask_loop_unclear pre [] Hpre) as Hwait.
  rewrite app_nil_r in Hwait. rewrite Hwait. cbn [fst snd ask_loop].
  destruct line as [answer [e|]]; cbn [fst snd].
  - rewrite !app_nil_r. auto.
  - unfold unclear in Hline. cbn [fst snd is_err negb andb] in Hline.
    destruct (String.eqb (normalize answer) "yes"); cbn [fst snd].
    + rewrite !app_nil_r. auto.
    + destruct (String.eqb (normalize answer) "no"); [|discriminate].
      cbn [fst snd]. rewrite !app_nil_r. auto.
Qed.

End AskingFacts.

Lemma askAddingUnknownHostKey_decided_witness :
  snd (askAddingUnknownHostKey (fun s => s) "example.org" "192.0.2.1:22"
         "SHA256:abc"
         ([("maybe"%string, None)] ++ (""%string, Some EOF) :: []))
  = Some (false, Some (Errorf "failed to read answer: %s" EOF)).
Proof.
  apply (askAddingUnknownHostKey_decided (fun s => s) "example.org"
           "192.0.2.1:22" "SHA256:abc" [("maybe"%string, None)] []
           (""%string, Some EOF)); reflexivity.
Defined.

(** ** The host key callback *)

Section HostKeyFacts.

Context (Error : error -> string).

(** X22. A host key that the known-hosts check rejects for any reason other
    than "unknown host" (an error that is no [KeyError], or a [KeyError]
    that lists the keys it wants) is refused with that very error, with or
    without strict checking: the user is not asked and no file is opened or
    written.  With no known-hosts file at all the callback fails before
    doing anything. *)
Theorem verifyAndAppendNew_rejects_mismatch (strict : bool)
  (files : list string) (hostname remote : string) (a : hostKeyAnswers)
  (err : error) :
  (files <> [] -> hk_load a = None -> hk_check a = Some err ->
   unknown_host a = false ->
   let r := verifyAndAppendNew Error strict files hostname remote a in
   snd r = Some err
   /\ fst r = [LoadKnownHosts files; CheckHostKey hostname remote])
  /\ verifyAndAppendNew Error strict [] hostname remote a
     = ([], Some (OtherError "there is no knownhosts file")).
Proof.
  split; [|reflexivity].
  intros Hfiles Hload Hcheck Hunknown. cbn zeta.
  unfold verifyAndAppendNew, unknown_host in *.
  destruct files as [|first files]; [contradiction|].
  rewrite Hload, Hcheck in *. cbn [is_err andb] in Hunknown.
  destruct (hk_is_KeyError a); cbn [negb orb andb] in *; [|auto].
  destruct (hk_want a); [discriminate|]. cbn. auto.
Qed.

(** X23. The callback accepts a host key, returning no error, in two cases
    only: the known-hosts check passed, or the host is unknown, the user
    said yes when strict checking is on, and the entry was appended to the
    first known-hosts file.  In the second case the entry names the host,
    and also the remote address when it differs, and the file is closed
    after the write. *)
Theorem verifyAndAppendNew_accepts (strict : bool) (files : list string)
  (hostname remote : string) (a : hostKeyAnswers) :
  let r := verifyAndAppendNew Error strict files hostname remote a in
  (snd r = None <->
   files <> [] /\ hk_load a = None
   /\ (hk_check a = None
       \/ (unknown_host a = true
           /\ (strict = true -> hk_ask a = (true, None))
           /\ hk_open a = None /\ hk_write a = None)))
  /\ (snd r = None -> hk_check a <> None ->
      exists first rest,
        files = first :: rest
        /\ fst r
           = [LoadKnownHosts files; CheckHostKey hostname remote]
             ++ (if strict then [AskAdding hostname remote] else [])
             ++ [OpenAppend first;
                 WriteLine (if String.eqb remote hostname then [hostname]
                            else [hostname; remote]);
                 CloseFile]).
Proof.
  cbn zeta. unfold verifyAndAppendNew, unknown_host.
  destruct files as [|first files].
  { split; [|discriminate]. split; [discriminate|]. intros [H _]. congruence. }
  destruct (hk_load a) as [e|].
  { split; [|discriminate]. split; [discriminate|].
    intros (_ & H & _). discriminate. }
  destruct (hk_check a) as [err|].
  2:{ split; [|intros _ H; congruence]. split; [|reflexivity].
      intros _. split; [discriminate|]. split; [reflexivity|]. now left. }
  cbn [is_err andb].
  destruct (hk_is_KeyError a); cbn [negb orb andb].
  2:{ split; [|discriminate]. split; [discriminate|].
      intros (_ & _ & [H|(H & _)]); discriminate. }
  destruct (hk_want a) as [|n]; cbn [Nat.ltb Nat.leb Nat.eqb].
  2:{ split; [|discriminate]. split; [discriminate|].
      intros (_ & _ & [H|(H & _)]); discriminate. }
  destruct strict.
  - destruct (hk_ask a) as [answer [e|]]; cbn [is_err orb].
    { split; [|discriminate]. split; [discriminate|].
      intros (_ & _ & [H|(_ & H & _)]); [discriminate|].
      specialize (H eq_refl). discriminate. }
    destruct answer; cbn [negb].
    2:{ split; [|discriminate]. split; [discriminate|].
        intros (_ & _ & [H|(_ & H & _)]); [discriminate|].
        specialize (H eq_refl). discriminate. }
    destruct (hk_open a) as [e|].
    { split; [|discriminate]. split; [discriminate|].
      intros (_ & _ & [H|(_ & _ & H & _)]); discriminate. }
    cbn [snd fst]. destruct (hk_write a) as [e|].
    { split; [|discriminate]. split; [discriminate|].
      intros (_ & _ & [H|(_ & _ & _ & H)]); discriminate. }
    split.
    + split; [|reflexivity]. intros _.
      split; [discriminate|]. split; [reflexivity|]. right. auto.
    + intros _ _. exists first, files. auto.
  - destruct (hk_open a) as [e|].
    { split; [|discriminate]. split; [discriminate|].
      intros (_ & _ & [H|(_ & _ & H & _)]); discriminate. }
    cbn [snd fst]. destruct (hk_write a) as [e|].
    { split; [|discriminate]. split; [discriminate|].
      intros (_ & _ & [H|(_ & _ & _ & H)]); discriminate. }
    split.
    + split; [|reflexivity]. intros _.
      split; [discriminate|]. split; [reflexivity|]. right.
      repeat split; auto. discriminate.
    + intros _ _. exists first, files. auto.
Qed.

End HostKeyFacts.

Lemma verifyAndAppendNew_rejects_mismatch_witness :
  verifyAndAppendNew (fun _ => ""%string) false ["known_hosts"%string]
    "example.org" "192.0.2.1:22" mismatch_answers
  = ([LoadKnownHosts ["known_hosts"%string];
      CheckHostKey "example.org" "192.0.2.1:22"],
     Some (OtherError "knownhosts: key mismatch")).
Proof.
  destruct (verifyAndAppendNew_rejects_mismatch (fun _ => ""%string) false
              ["known_hosts"%string] "example.org" "192.0.2.1:22"
              mismatch_answers (OtherError "knownhosts: key mismatch"))
    as [Hreject _].
  destruct Hreject as [Herr Hacts];
    [discriminate|reflexivity|reflexivity|reflexivity|].
  cbn zeta in *. 
  destruct (verifyAndAppendNew (fun _ => ""%string) false
              ["known_hosts"%string] "example.org" "192.0.2.1:22"
              mismatch_answers) as [acts r].
  cbn [fst snd] in *. now subst.
Defined.

Lemma verifyAndAppendNew_accepts_witness :
  exists first rest,
    ["known_hosts"%string; "known_hosts2"%string] = first :: rest
    /\ fst (verifyAndAppendNew (fun _ => ""%string) true
              ["known_hosts"%string; "known_hosts2"%string]
              "example.org" "192.0.2.1:22" accepting_answers)
       = [LoadKnownHosts ["known_hosts"%string; "known_hosts2"%string];
          CheckHostKey "example.org" "192.0.2.1:22"]
         ++ [AskAdding "example.org" "192.0.2.1:22"]
         ++ [OpenAppend first;
             WriteLine ["example.org"%string; "192.0.2.1:22"%string];
             CloseFile].
Proof.
  apply (verifyAndAppendNew_accepts (fun _ => ""%string) true
           ["known_hosts"%string; "known_hosts2"%string]
           "example.org" "192.0.2.1:22" accepting_answers);
    [reflexivity|discriminate].
Defined.

(** ** The command line *)




Section ParseArgsFacts.

Context (Join : list string -> string) (Lstat_ok : string -> bool)
  (open_log : string -> option error) (commitHash buildDate : string).


Lemma fold_appends_nothing {A} (test : A -> bool) (items : list A)
  (ids : list string) :
  fold_left (fun ids f => if test f then ids ++ [] else ids) items ids = ids.
Proof.
  revert ids. induction items as [|f items IH]; intros ids; cbn;
    [reflexivity|].
  rewrite app_nil_r. destruct (test f); apply IH.
Qed.

Lemma fold_appends_existing (path : string -> string) (items : list string)
  (ids : list string) :
  fold_left
    (fun ids f => if Lstat_ok (path f) then ids ++ [path f] else ids)
    items ids
  = ids ++ List.filter Lstat_ok (map path items).
Proof.
  revert ids. induction items as [|f items IH]; intros ids; cbn.
  - now rewrite app_nil_r.
  - rewrite IH. destruct (Lstat_ok (path f)); [|reflexivity].
    now rewrite <- app_assoc.
Qed.

(** X25. The identity files a returning [parseArgs] leaves are those given
    with [-i] (after those already configured) when there is one; with
    none, they are the default key files that exist in the [.ssh] directory
    of the home directory when [-U] is given, and none at all otherwise.
    The default key files of the application directory are never among
    them, whether they exist or not. *)
Theorem parseArgs_identity_files (dir homeDir : string) (conf : appConf)
  (fl : parsedFlags) :
  flag_V fl = false ->
  exists conf',
    parsed_conf
      (parseArgs Join Lstat_ok open_log commitHash buildDate dir homeDir
         conf fl) = Some conf'
    /\ a_IdentityFiles conf'
       = match a_IdentityFiles conf ++ flag_i fl with
         | [] =>
             if flag_U fl then
               List.filter Lstat_ok
                 (map (fun f => Join [homeDir; ".ssh"%string; f])
                    defaultIdentityFiles)
             else []
         | given => given
         end.
Proof.
  intros HV. unfold parseArgs. rewrite HV.
  destruct (if negb (flag_E fl =? "")%string then _ else _)
    as [logFile stderr].
  rewrite (fold_appends_nothing (fun f => Lstat_ok (Join [dir; f]))).
  rewrite (fold_appends_existing (fun f => Join [homeDir; ".ssh"%string; f])).
  assert (Hids :
    (if (length (a_IdentityFiles conf ++ flag_i fl) =? 0)%nat
     then if flag_U fl
          then (a_IdentityFiles conf ++ flag_i fl) ++
               List.filter Lstat_ok
                 (map (fun f => Join [homeDir; ".ssh"%string; f])
                    defaultIdentityFiles)
          else a_IdentityFiles conf ++ flag_i fl
     else a_IdentityFiles conf ++ flag_i fl)
    = match a_IdentityFiles conf ++ flag_i fl with
      | [] =>
          if flag_U fl then
            List.filter Lstat_ok
              (map (fun f => Join [homeDir; ".ssh"%string; f])
                 defaultIdentityFiles)
          else []
      | given => given
      end).
  { destruct (a_IdentityFiles conf ++ flag_i fl); reflexivity. }
  destruct (String.eqb (nth 0 (flag_args fl) ""%string) "").
  - eexists. split; [reflexivity|]. exact Hids.
  - destruct (if negb (Index_at _ =? -1) then _ else _) as [User Host].
    eexists. split; [reflexivity|]. exact Hids.
Qed.

End ParseArgsFacts.


Lemma parseArgs_identity_files_witness :
  exists conf',
    parsed_conf
      (parseArgs (String.concat "/") (fun _ => true) (fun _ => None) "" ""
         "/home/u/.minssh" "/home/u" (new_appConf "u")
         (flags_of_args ["example.org"%string]))
    = Some conf'
    /\ a_IdentityFiles conf' = [].
Proof.
  apply (parseArgs_identity_files (String.concat "/") (fun _ => true)
           (fun _ => None) "" "" "/home/u/.minssh" "/home/u"
           (new_appConf "u") (flags_of_args ["example.org"%string])
           eq_refl).
Defined.

(** ** The controlling terminal *)

(** X26. When [openTTY] succeeds, [closeTTY] on the two files it returned
    closes exactly the files [openTTY] opened, in the order it opened them,
    and so never a standard stream; a stream that is a terminal is returned
    as it is.  When the second [os.OpenFile] fails after the first one
    succeeded, [openTTY] returns no file at all, so the file it had opened
    is out of the caller's reach. *)
Theorem openTTY_closeTTY_balanced (a : ttyAnswers) (e : error) :
  (forall ttyin ttyout,
     snd (openTTY a) = (Some ttyin, Some ttyout, None) ->
     files_closed (closeTTY ttyin ttyout) = files_opened (fst (openTTY a))
     /\ (stdin_is_terminal a = true -> ttyin = StdFile Stdin)
     /\ (stdout_is_terminal a = true -> ttyout = StdFile Stdout))
  /\ (stdin_is_terminal a = false -> open_in_err a = None ->
      stdout_is_terminal a = false -> open_out_err a = Some e ->
      snd (openTTY a) = (None, None, Some e)
      /\ files_opened (fst (openTTY a)) = [OpenedFile 0]).
Proof.
  unfold openTTY. split.
  - intros ttyin ttyout.
    destruct (stdin_is_terminal a), (stdout_is_terminal a),
      (open_in_err a), (open_out_err a); cbn;
      intros [=]; subst; cbn; repeat split; auto; discriminate.
  - intros -> -> -> ->. split; reflexivity.
Qed.

Lemma openTTY_closeTTY_balanced_witness :
  let a := {| stdin_is_terminal := false; stdout_is_terminal := true;
              open_in_err := None; open_out_err := None |} in
  files_closed (closeTTY (OpenedFile 0) (StdFile Stdout))
  = files_opened (fst (openTTY a)).
Proof.
  cbn zeta.
  destruct (openTTY_closeTTY_balanced
              {| stdin_is_terminal := false; stdout_is_terminal := true;
                 open_in_err := None; open_out_err := None |} EOF)
    as [Hbalanced _].
  destruct (Hbalanced (OpenedFile 0) (StdFile Stdout) eq_refl)
    as [Hclosed _].
  exact Hclosed.
Defined.

(** ** The quiet exit message *)

(** X27. In the copy with a quiet mode, an error ending is always printed,
    as one string on standard output that begins with the common prefix,
    whether quiet mode is on or not; the success line is printed exactly
    when quiet mode is off. *)
Theorem printExitMessage_quiet_silences_success
  (Sprintf : string -> list arg -> string) (quiet : bool) (host : string)
  (e : error) :
  let closed := Sprintf "ssh connection to %s closed " [AStr host] in
  (exists rest,
     printExitMessage_with_quiet Sprintf quiet host (Some e)
     = [OnStdout (closed ++ rest)%string]
     /\ printExitMessage_with_quiet Sprintf (negb quiet) host (Some e)
        = [OnStdout (closed ++ rest)%string])
  /\ printExitMessage_with_quiet Sprintf quiet host None
     = if quiet then []
       else [OnStdout (closed ++ "successfully\n")%string].
Proof.
  cbn zeta. split.
  - unfold printExitMessage_with_quiet. eexists. split; reflexivity.
  - unfold printExitMessage_with_quiet, directedPrintf. now destruct quiet.
Qed.
